(** * Adaptive 3D-rendering quality controller: embedding and properties

    A shallow embedding of the quality-controller logic of the repository:

    - [deviceDetection.js]      capability assessment and tier registry,
    - [modelMemoryManager.js]   asset cache and memory manager,
    - [phoenixPerformanceMonitor.js] runtime monitor (degrade decision),
    - [animationOptimizer.js] and [LODManager.jsx] runtime tier changes.

    Conventions.  JavaScript numbers are modelled by exact rationals [Q]
    (integers by [Z] where the source only ever stores integers, such as
    [Date.now()] stamps and array indices); the rounding of IEEE doubles
    is not modelled.  Strings are ASCII strings.  [null] and [undefined]
    are [None].  Objects used as lookup tables are association lists over
    their own keys; a [Map] is an association list in insertion order where
    the order matters and a [gmap] where it does not.  Asynchronous methods
    are split at their [await]s into atomic steps of an event-driven state
    machine. *)

From Stdlib Require Import Ascii String QArith Qround Lqa.
From stdpp Require Import base list sorting gmap strings.

Local Open Scope string_scope.
Local Open Scope Z_scope.

(** ** JavaScript primitives used by the code *)

Module JS.

(** [a || b] on values that are either absent/null or an object. *)
Definition or {A} (a : option A) (b : option A) : option A :=
  match a with
  | Some x => Some x
  | None => b
  end.

(** [table[key]] on an object literal: the first own key that matches. *)
Fixpoint get {A} (table : list (string * A)) (key : string) : option A :=
  match table with
  | [] => None
  | (k, v) :: rest => if String.eqb k key then Some v else get rest key
  end.

(** [Array.prototype.indexOf]: position of the first match, [-1] if none. *)
Fixpoint indexOf (arr : list string) (x : string) : Z :=
  match arr with
  | [] => -1
  | y :: rest =>
      if String.eqb y x then 0
      else let i := indexOf rest x in
           if i <? 0 then -1 else i + 1
  end.

(** [arr[i]] for an integer index: [undefined] outside the array. *)
Definition at_ {A} (arr : list A) (i : Z) : option A :=
  if i <? 0 then None else arr !! Z.to_nat i.

(** [Math.min] on two numbers. *)
Definition min (x y : Q) : Q := if Qle_bool x y then x else y.

(** [Math.round]: the nearest integer, halves rounded up. *)
Definition round (x : Q) : Z := Qfloor (x + (1 # 2))%Q.

(** Strict comparisons of numbers as booleans. *)
Definition gt (x y : Q) : bool := negb (Qle_bool x y).
Definition lt (x y : Q) : bool := negb (Qle_bool y x).

(** [String.prototype.toLowerCase] on ASCII text. *)
Definition lowerChar (c : ascii) : ascii :=
  let n := N_of_ascii c in
  if ((65 <=? n) && (n <=? 90))%N then ascii_of_N (n + 32) else c.

Fixpoint toLowerCase (s : string) : string :=
  match s with
  | EmptyString => EmptyString
  | String c rest => String (lowerChar c) (toLowerCase rest)
  end.

(** [String.prototype.includes]. *)
Fixpoint includes (s needle : string) : bool :=
  String.prefix needle s ||
  match s with
  | EmptyString => false
  | String _ rest => includes rest needle
  end.

(** [Array.prototype.sort] with a comparator: a stable sort.  An element
    is placed before the first later element it does not compare greater
    than, so elements that compare equal keep their order. *)
Fixpoint insertSorted {A} (cmp : A -> A -> Z) (x : A) (l : list A) : list A :=
  match l with
  | [] => [x]
  | y :: rest => if cmp x y <=? 0 then x :: l else y :: insertSorted cmp x rest
  end.

Definition sort {A} (cmp : A -> A -> Z) (arr : list A) : list A :=
  foldr (insertSorted cmp) [] arr.

(** [arr.slice(-n)]: the last [n] elements. *)
Definition sliceLast {A} (n : nat) (arr : list A) : list A :=
  drop (length arr - n) arr.

(** [Array.prototype.shift]: drops the first element. *)
Definition shift {A} (arr : list A) : list A := drop 1 arr.

(** [arr.push(x)] followed by [if (arr.length > limit) arr.shift()]. *)
Definition pushShift {A} (limit : nat) (arr : list A) (x : A) : list A :=
  let arr := (arr ++ [x])%list in
  if (limit <? length arr)%nat then shift arr else arr.

End JS.

(** ** deviceDetection.js *)

Module DeviceDetection.

Inductive GPUTier := HIGH | MEDIUM | LOW | NONE.
Inductive NetworkQuality := FAST | NET_MEDIUM | SLOW | UNKNOWN.

Definition GPUTier_eqb (a b : GPUTier) : bool :=
  match a, b with
  | HIGH, HIGH | MEDIUM, MEDIUM | LOW, LOW | NONE, NONE => true
  | _, _ => false
  end.

Definition NetworkQuality_eqb (a b : NetworkQuality) : bool :=
  match a, b with
  | FAST, FAST | NET_MEDIUM, NET_MEDIUM | SLOW, SLOW | UNKNOWN, UNKNOWN => true
  | _, _ => false
  end.

(** [GPU_PERFORMANCE_TIERS] *)
Definition GPU_HIGH : list string :=
  [ "Apple A15"; "Apple A16"; "Apple A17"; "Apple M1"; "Apple M2";
    "Adreno 730"; "Adreno 740"; "Adreno 750";
    "Mali-G78"; "Mali-G710"; "Mali-G715";
    "PowerVR GT7600"; "PowerVR GT7800" ].

Definition GPU_MEDIUM : list string :=
  [ "Apple A12"; "Apple A13"; "Apple A14";
    "Adreno 640"; "Adreno 650"; "Adreno 660";
    "Mali-G76"; "Mali-G77"; "Mali-G68";
    "PowerVR GE8320"; "PowerVR GM9446" ].

Definition GPU_LOW : list string :=
  [ "Adreno 530"; "Adreno 540"; "Adreno 618"; "Adreno 619";
    "Mali-G52"; "Mali-G57"; "Mali-G51";
    "PowerVR GE8300"; "PowerVR GE8100" ].

(** What the host reports to the probes. *)
Record GLContext := {
  debugRenderer : option string;   (* WEBGL_debug_renderer_info, if any *)
  glMaxTextureSize : Z;
  hasWebgl2 : bool
}.

Record Connection := {
  effectiveType : string;
  downlink : Q
}.

Record Host := {
  isMobile : bool;
  isTablet : bool;
  glContext : option GLContext;     (* getContext('webgl') || experimental *)
  deviceMemory : option Q;          (* navigator.deviceMemory, in GB *)
  connection : option Connection;   (* navigator.connection *)
  devicePixelRatio : Q
}.

Record WebGLInfo := {
  supported : bool;
  renderer : option string;
  maxTextureSize : option Z;
  webgl2Support : option bool;
  tier : GPUTier
}.

Definition matchesAny (rendererLower : string) (gpus : list string) : bool :=
  existsb (fun gpu => JS.includes rendererLower (JS.toLowerCase gpu)) gpus.

Definition assessGPUTier (renderer : string) (maxTextureSize : Z)
    (webgl2Support : bool) : GPUTier :=
  let rendererLower := JS.toLowerCase renderer in
  if matchesAny rendererLower GPU_HIGH then HIGH
  else if matchesAny rendererLower GPU_MEDIUM then MEDIUM
  else if matchesAny rendererLower GPU_LOW then LOW
  else if (4096 <=? maxTextureSize) && webgl2Support then HIGH
  else if 2048 <=? maxTextureSize then MEDIUM
  else LOW.

Definition getWebGLCapabilities (h : Host) : WebGLInfo :=
  match glContext h with
  | None =>
      {| supported := false; renderer := None; maxTextureSize := None;
         webgl2Support := None; tier := NONE |}
  | Some gl =>
      let renderer := default "" (debugRenderer gl) in
      {| supported := true;
         renderer := Some renderer;
         maxTextureSize := Some (glMaxTextureSize gl);
         webgl2Support := Some (hasWebgl2 gl);
         tier := assessGPUTier renderer (glMaxTextureSize gl) (hasWebgl2 gl) |}
  end.

Definition estimateAvailableMemory (h : Host) : Q :=
  match deviceMemory h with
  | Some gb => (gb * 1024)%Q
  | None =>
      (if isMobile h then (if isTablet h then 3072 else 2048)
       else 8192)%Q
  end.

Definition getNetworkQuality (h : Host) : NetworkQuality :=
  match connection h with
  | Some c =>
      if String.eqb (effectiveType c) "4g" && JS.gt (downlink c) 10 then FAST
      else if String.eqb (effectiveType c) "4g" || String.eqb (effectiveType c) "3g"
      then NET_MEDIUM
      else SLOW
  | None => UNKNOWN
  end.

(** [getModelPath]: the table maps ['none'] to [null]. *)
Definition modelPaths : list (string * option string) :=
  [ ("none", None);
    ("ultra-low", Some "/models/optimized/ynz-ultra-low.glb");
    ("low", Some "/models/optimized/ynz-low.glb");
    ("medium", Some "/models/optimized/ynz-medium.glb");
    ("high", Some "/models/optimized/ynz-high.glb");
    ("original", Some "/models/ynz.glb") ].

(** A table entry that is missing ([undefined]) or [null] is falsy. *)
Definition entry {A} (table : list (string * option A)) (key : string) : option A :=
  mjoin (JS.get table key).

Definition getModelPath (quality : string) : option string :=
  JS.or (entry modelPaths quality) (entry modelPaths "low").

Record LoadingStrategy := {
  useProgressiveLoading : bool;
  showLoadingIndicator : bool;
  timeout : Z;
  retryAttempts : Z;
  preloadTextures : bool
}.

Definition getLoadingStrategy (quality : string) (networkQuality : NetworkQuality)
    : LoadingStrategy :=
  {| useProgressiveLoading := negb (String.eqb quality "none");
     showLoadingIndicator := true;
     timeout := if NetworkQuality_eqb networkQuality SLOW then 30000 else 15000;
     retryAttempts := if NetworkQuality_eqb networkQuality SLOW then 1 else 2;
     preloadTextures :=
       String.eqb quality "high" && NetworkQuality_eqb networkQuality FAST |}.

Record PerformanceSettings := {
  antialias : bool;
  shadows : bool;
  pixelRatio : Q;
  maxFPS : Q;
  frustumCulling : bool;
  matrixAutoUpdate : bool
}.

Definition performanceSettingsTable (h : Host)
    : list (string * option PerformanceSettings) :=
  [ ("none", None);
    ("ultra-low",
      Some {| antialias := false; shadows := false;
              pixelRatio := JS.min (devicePixelRatio h) 1;
              maxFPS := 30; frustumCulling := true; matrixAutoUpdate := false |});
    ("low",
      Some {| antialias := false; shadows := false;
              pixelRatio := JS.min (devicePixelRatio h) (3 # 2);
              maxFPS := 30; frustumCulling := true; matrixAutoUpdate := false |});
    ("medium",
      Some {| antialias := if isMobile h then false else true; shadows := false;
              pixelRatio := JS.min (devicePixelRatio h) 2;
              maxFPS := if isMobile h then 30 else 60;
              frustumCulling := true; matrixAutoUpdate := false |});
    ("high",
      Some {| antialias := true; shadows := true;
              pixelRatio := JS.min (devicePixelRatio h) 2;
              maxFPS := 60; frustumCulling := true; matrixAutoUpdate := true |}) ].

Definition getPerformanceSettings (h : Host) (quality : string)
    : option PerformanceSettings :=
  JS.or (entry (performanceSettingsTable h) quality)
        (entry (performanceSettingsTable h) "low").

Record DeviceInfo := {
  dev_isMobile : bool;
  dev_isTablet : bool;
  webgl : WebGLInfo;
  estimatedMemory : Q;
  network : NetworkQuality
}.

Record Assessment := {
  deviceInfo : DeviceInfo;
  recommendedQuality : string;
  modelPath : option string;
  loadingStrategy : LoadingStrategy;
  performanceSettings : option PerformanceSettings
}.

(** The quality chosen from the probes, before the network adjustment. *)
Definition baseQuality (mobile : bool) (webglInfo : WebGLInfo)
    (memoryEstimate : Q) : string :=
  if negb (supported webglInfo) then "none"
  else if mobile then
    if GPUTier_eqb (tier webglInfo) HIGH && JS.gt memoryEstimate 3000 then "medium"
    else if GPUTier_eqb (tier webglInfo) MEDIUM || JS.gt memoryEstimate 2000 then "low"
    else "ultra-low"
  else
    if GPUTier_eqb (tier webglInfo) HIGH then "high"
    else if GPUTier_eqb (tier webglInfo) MEDIUM then "medium"
    else "low".

Definition qualityLevels : list string :=
  [ "none"; "ultra-low"; "low"; "medium"; "high" ].

(** The adjustment for a slow network. *)
Definition adjustForNetwork (networkQuality : NetworkQuality)
    (recommendedQuality : string) : string :=
  if NetworkQuality_eqb networkQuality SLOW then
    let currentIndex := JS.indexOf qualityLevels recommendedQuality in
    if 1 <? currentIndex then
      default recommendedQuality (JS.at_ qualityLevels (currentIndex - 1))
    else recommendedQuality
  else recommendedQuality.

Definition assessDeviceCapabilities (h : Host) : Assessment :=
  let webglInfo := getWebGLCapabilities h in
  let memoryEstimate := estimateAvailableMemory h in
  let networkInfo := getNetworkQuality h in
  let deviceInfo :=
    {| dev_isMobile := isMobile h; dev_isTablet := isTablet h;
       webgl := webglInfo; estimatedMemory := memoryEstimate;
       network := networkInfo |} in
  let recommendedQuality :=
    adjustForNetwork networkInfo (baseQuality (isMobile h) webglInfo memoryEstimate) in
  {| deviceInfo := deviceInfo;
     recommendedQuality := recommendedQuality;
     modelPath := getModelPath recommendedQuality;
     loadingStrategy := getLoadingStrategy recommendedQuality networkInfo;
     performanceSettings := getPerformanceSettings h recommendedQuality |}.

End DeviceDetection.

(** ** modelMemoryManager.js *)

Module MemoryManager.
Import DeviceDetection.

(** *** Loaded model data, as far as the manager inspects it *)

Record Attribute := { count : Q; itemSize : Q }.

Record Attributes := {
  position : option Attribute;
  normal : option Attribute;
  uv : option Attribute
}.

Record Geometry := {
  attributes : option Attributes;
  index : option Q                 (* index.count *)
}.

Record Node := { geometry : option Geometry }.

Record Image := { width : option Q; height : option Q }.

Record Texture := { image : option Image }.

Record Material := {
  map_ : option Texture;
  normalMap : option Texture;
  roughnessMap : option Texture;
  metalnessMap : option Texture;
  emissiveMap : option Texture
}.

Record ModelData := {
  nodes : option (list Node);
  materials : option (list Material)
}.

(** [['map', 'normalMap', 'roughnessMap', 'metalnessMap', 'emissiveMap']] *)
Definition textureProps (material : Material) : list (option Texture) :=
  [ map_ material; normalMap material; roughnessMap material;
    metalnessMap material; emissiveMap material ].

(** *** Compression settings *)

Record CompressionSettings := {
  textureCompressionRatio : Q;
  geometryOptimization : bool;
  materialSimplification : bool;
  enableDraco : bool
}.

Definition compressionTable : list (string * CompressionSettings) :=
  [ ("ultra-low",
      {| textureCompressionRatio := 1 # 4; geometryOptimization := true;
         materialSimplification := true; enableDraco := false |});
    ("low",
      {| textureCompressionRatio := 1 # 2; geometryOptimization := true;
         materialSimplification := true; enableDraco := true |});
    ("medium",
      {| textureCompressionRatio := 3 # 4; geometryOptimization := false;
         materialSimplification := false; enableDraco := true |});
    ("high",
      {| textureCompressionRatio := 1; geometryOptimization := false;
         materialSimplification := false; enableDraco := true |}) ].

(** How a call ends: with a value, with an exception, or not at all
    within the given recursion depth. *)
Inductive Outcome (A : Type) :=
  | Returns (v : A)
  | Throws
  | OutOfFuel.
Arguments Returns {A} v.
Arguments Throws {A}.
Arguments OutOfFuel {A}.

(** [getCompressionSettings]: [{...}[quality] || this.getCompressionSettings()['low']].
    The fallback calls the method again on the same object, hence with the
    same [quality]; each call consumes one unit of [fuel].  Had the inner
    call returned a settings record, its ['low'] property would be
    [undefined]; on [undefined] the property access throws. *)
Fixpoint getCompressionSettings (fuel : nat) (quality : string)
    : Outcome (option CompressionSettings) :=
  match fuel with
  | O => OutOfFuel
  | S fuel' =>
      match JS.get compressionTable quality with
      | Some settings => Returns (Some settings)
      | None =>
          match getCompressionSettings fuel' quality with
          | Returns (Some _) => Returns None
          | Returns None => Throws
          | Throws => Throws
          | OutOfFuel => OutOfFuel
          end
      end
  end.

(** *** Cache entries *)

Inductive Priority := PLow | PNormal | PHigh.

Definition Priority_eqb (a b : Priority) : bool :=
  match a, b with
  | PLow, PLow | PNormal, PNormal | PHigh, PHigh => true
  | _, _ => false
  end.

Record CacheEntry := {
  data : ModelData;
  path : string;
  memoryUsage : Q;
  loadTime : Q;
  lastAccessed : Z;
  priority : Priority;
  compressionApplied : option CompressionSettings
}.

(** A [Map] keyed by path, in insertion order. *)
Definition ModelMap := list (string * CacheEntry).

Definition mapGet (m : ModelMap) (key : string) : option CacheEntry :=
  JS.get m key.

Fixpoint mapSet (m : ModelMap) (key : string) (v : CacheEntry) : ModelMap :=
  match m with
  | [] => [(key, v)]
  | (k, old) :: rest =>
      if String.eqb k key then (k, v) :: rest
      else (k, old) :: mapSet rest key v
  end.

Fixpoint mapDelete (m : ModelMap) (key : string) : ModelMap :=
  match m with
  | [] => []
  | (k, v) :: rest =>
      if String.eqb k key then rest else (k, v) :: mapDelete rest key
  end.

(** *** Manager state *)

Record MemoryUsage := {
  totalGeometries : nat;
  totalMaterials : nat;
  totalTextures : nat;
  estimatedMemoryMB : Q
}.

(** The promise returned by one [loadModelInternal] call. *)
Inductive PromiseState :=
  | Fetching      (* the underlying load is in flight *)
  | Fulfilled     (* the entry is cached; the caller has not resumed yet *)
  | Rejected      (* the load failed; the caller has not resumed yet *)
  | Settled.      (* [loadModelProgressive] resumed after its [await] *)

#[global] Instance PromiseState_eq_dec : EqDecision PromiseState.
Proof. solve_decision. Defined.

Record LoadPromise := {
  p_path : string;
  p_priority : Priority;
  p_state : PromiseState
}.

Record Manager := {
  loadedModels : ModelMap;
  loadingPromises : gmap string nat;      (* path -> promise id *)
  this_memoryUsage : MemoryUsage;
  deviceCapabilities : Assessment;
  maxCacheSize : Q;
  compressionSettings : option CompressionSettings;
  (* bookkeeping of the embedding *)
  promises : list LoadPromise;            (* every promise created, by id *)
  disposed : list string                  (* [disposeModel] calls, in order *)
}.

Definition with_loadedModels (m : Manager) (l : ModelMap) : Manager :=
  {| loadedModels := l; loadingPromises := loadingPromises m;
     this_memoryUsage := this_memoryUsage m;
     deviceCapabilities := deviceCapabilities m; maxCacheSize := maxCacheSize m;
     compressionSettings := compressionSettings m;
     promises := promises m; disposed := disposed m |}.

Definition with_loadingPromises (m : Manager) (lp : gmap string nat) : Manager :=
  {| loadedModels := loadedModels m; loadingPromises := lp;
     this_memoryUsage := this_memoryUsage m;
     deviceCapabilities := deviceCapabilities m; maxCacheSize := maxCacheSize m;
     compressionSettings := compressionSettings m;
     promises := promises m; disposed := disposed m |}.

Definition with_memoryUsage (m : Manager) (u : MemoryUsage) : Manager :=
  {| loadedModels := loadedModels m; loadingPromises := loadingPromises m;
     this_memoryUsage := u;
     deviceCapabilities := deviceCapabilities m; maxCacheSize := maxCacheSize m;
     compressionSettings := compressionSettings m;
     promises := promises m; disposed := disposed m |}.

Definition with_promises (m : Manager) (ps : list LoadPromise) : Manager :=
  {| loadedModels := loadedModels m; loadingPromises := loadingPromises m;
     this_memoryUsage := this_memoryUsage m;
     deviceCapabilities := deviceCapabilities m; maxCacheSize := maxCacheSize m;
     compressionSettings := compressionSettings m;
     promises := ps; disposed := disposed m |}.

Definition with_disposed (m : Manager) (d : list string) : Manager :=
  {| loadedModels := loadedModels m; loadingPromises := loadingPromises m;
     this_memoryUsage := this_memoryUsage m;
     deviceCapabilities := deviceCapabilities m; maxCacheSize := maxCacheSize m;
     compressionSettings := compressionSettings m;
     promises := promises m; disposed := d |}.

(** [getMaxCacheSize] *)
Definition getMaxCacheSize (caps : Assessment) : Q :=
  if dev_isMobile (deviceInfo caps) then 50
  else
    match maxTextureSize (webgl (deviceInfo caps)) with
    | Some size => if size <? 4096 then 100 else 200
    | None => 200                   (* [undefined < 4096] is false *)
    end.

(** The fields set by the constructor, given the compression settings. *)
Definition init (h : Host) (settings : option CompressionSettings) : Manager :=
  let caps := assessDeviceCapabilities h in
  {| loadedModels := [];
     loadingPromises := ∅;
     this_memoryUsage :=
       {| totalGeometries := 0; totalMaterials := 0; totalTextures := 0;
          estimatedMemoryMB := 0 |};
     deviceCapabilities := caps;
     maxCacheSize := getMaxCacheSize caps;
     compressionSettings := settings;
     promises := [];
     disposed := [] |}.

(** [new ModelMemoryManager()] *)
Definition constructor (fuel : nat) (h : Host) : Outcome Manager :=
  match getCompressionSettings fuel (recommendedQuality (assessDeviceCapabilities h)) with
  | Returns settings => Returns (init h settings)
  | Throws => Throws
  | OutOfFuel => OutOfFuel
  end.

(** *** Memory accounting *)

Local Open Scope Q_scope.

(** [x || d] on a number: [0] is falsy. *)
Definition numOr (x d : Q) : Q := if Qeq_bool x 0 then d else x.

Definition optNumOr (x : option Q) (d : Q) : Q :=
  match x with
  | Some v => numOr v d
  | None => d
  end.

Definition attributeBytes (a : option Attribute) : Q :=
  match a with
  | Some attr => count attr * itemSize attr * 4
  | None => 0
  end.

(** Bytes of one geometry; [None] when [geo.attributes] is missing, where
    the property access throws. *)
Definition geometryMemory (geo : Geometry) : option Q :=
  match attributes geo with
  | None => None
  | Some attrs =>
      let geoMemory := 0 + attributeBytes (position attrs) in
      let geoMemory := geoMemory + attributeBytes (normal attrs) in
      let geoMemory := geoMemory + attributeBytes (uv attrs) in
      let geoMemory :=
        match index geo with
        | Some indexCount => geoMemory + indexCount * 2
        | None => geoMemory
        end in
      Some geoMemory
  end.

Fixpoint nodesMemory (ns : list Node) (memoryMB : Q) : option Q :=
  match ns with
  | [] => Some memoryMB
  | node :: rest =>
      match geometry node with
      | None => nodesMemory rest memoryMB
      | Some geo =>
          match geometryMemory geo with
          | None => None
          | Some geoMemory => nodesMemory rest (memoryMB + geoMemory / (1024 * 1024))
          end
      end
  end.

Definition textureMemory (texture : option Texture) (memoryMB : Q) : Q :=
  match texture with
  | Some {| image := Some img |} =>
      let width := optNumOr (width img) 512 in
      let height := optNumOr (height img) 512 in
      memoryMB + (width * height * 4) / (1024 * 1024)
  | _ => memoryMB
  end.

Definition materialsMemory (ms : list Material) (memoryMB : Q) : Q :=
  foldl (fun acc material =>
           foldl (fun acc' texture => textureMemory texture acc')
                 acc (textureProps material))
        memoryMB ms.

(** [calculateModelMemoryUsage]: an exception inside the [try] yields [5]. *)
Definition calculateModelMemoryUsage (modelData : ModelData) : Q :=
  let afterNodes :=
    match nodes modelData with
    | Some ns => nodesMemory ns 0
    | None => Some 0
    end in
  match afterNodes with
  | None => 5
  | Some memoryMB =>
      match materials modelData with
      | Some ms => materialsMemory ms memoryMB
      | None => memoryMB
      end
  end.

(** [getCurrentMemoryUsage] *)
Definition getCurrentMemoryUsage (m : Manager) : Q :=
  foldl (fun total model => total + numOr (memoryUsage model.2) 0) 0 (loadedModels m).

Definition countTextures (material : Material) : nat :=
  length (filter (fun t => is_Some t) (textureProps material)).

(** [updateMemoryUsage] *)
Definition updateMemoryUsage (m : Manager) : Manager :=
  let models := loadedModels m in
  let estimatedMemoryMB :=
    foldl (fun total model => total + numOr (memoryUsage model.2) 0) 0 models in
  let totalGeometries :=
    foldl (fun total model =>
             match nodes (data model.2) with
             | Some ns => (total + length ns)%nat
             | None => total
             end) 0%nat models in
  let totalMaterials :=
    foldl (fun total model =>
             match materials (data model.2) with
             | Some ms => (total + length ms)%nat
             | None => total
             end) 0%nat models in
  let totalTextures :=
    foldl (fun total model =>
             match materials (data model.2) with
             | Some ms => foldl (fun t material => (t + countTextures material)%nat) total ms
             | None => total
             end) 0%nat models in
  with_memoryUsage m
    {| totalGeometries := totalGeometries;
       totalMaterials := totalMaterials;
       totalTextures := totalTextures;
       estimatedMemoryMB := inject_Z (JS.round (estimatedMemoryMB * 100)) / 100 |}.

Record MemoryStats := {
  stats_usage : MemoryUsage;          (* [...this.memoryUsage] *)
  stats_maxCacheSize : Q;
  cacheUtilization : Q;
  loadedModelsCount : nat;
  stats_deviceCapabilities : string
}.

(** [getMemoryStats] *)
Definition getMemoryStats (m : Manager) : MemoryStats :=
  {| stats_usage := this_memoryUsage m;
     stats_maxCacheSize := maxCacheSize m;
     cacheUtilization :=
       (estimatedMemoryMB (this_memoryUsage m) / maxCacheSize m) * 100;
     loadedModelsCount := length (loadedModels m);
     stats_deviceCapabilities := recommendedQuality (deviceCapabilities m) |}.

(** *** Eviction *)

Definition priorityOrder (p : Priority) : Z :=
  match p with
  | PHigh => 3
  | PNormal => 2
  | PLow => 1
  end.

(** The comparator passed to [sort] in [performMemoryCleanup]. *)
Definition compareModels (a b : string * CacheEntry) : Z :=
  let modelA := a.2 in
  let modelB := b.2 in
  if negb (Priority_eqb (priority modelA) (priority modelB)) then
    priorityOrder (priority modelB) - priorityOrder (priority modelA)
  else lastAccessed modelA - lastAccessed modelB.

(** The eviction loop over the sorted entries: stops as soon as the usage
    is at or below the target. *)
Fixpoint evictLoop (targetUsage : Q) (sortedModels : ModelMap) (currentUsage : Q)
    (loaded : ModelMap) (log : list string) : ModelMap * list string :=
  match sortedModels with
  | [] => (loaded, log)
  | (modelPath, model) :: rest =>
      if Qle_bool currentUsage targetUsage then (loaded, log)
      else evictLoop targetUsage rest (currentUsage - memoryUsage model)
                     (mapDelete loaded modelPath) (log ++ [modelPath])
  end.

(** [performMemoryCleanup] *)
Definition performMemoryCleanup (m : Manager) : Manager :=
  let sortedModels := JS.sort compareModels (loadedModels m) in
  let targetUsage := maxCacheSize m * (6 # 10) in
  let currentUsage := getCurrentMemoryUsage m in
  let '(loaded, log) :=
    evictLoop targetUsage sortedModels currentUsage (loadedModels m) (disposed m) in
  updateMemoryUsage (with_disposed (with_loadedModels m loaded) log).

(** [ensureMemoryAvailable] *)
Definition ensureMemoryAvailable (m : Manager) : Manager :=
  if JS.gt (getCurrentMemoryUsage m) (maxCacheSize m * (8 # 10))
  then performMemoryCleanup m
  else m.

(** [disposeModel] releases the resources of one model; the embedding
    records the call. *)
Definition disposeAll (m : Manager) : Manager :=
  with_disposed m (disposed m ++ map fst (loadedModels m)).

(** [clearCache] *)
Definition clearCache (m : Manager) : Manager :=
  let m := disposeAll m in
  let m := with_loadedModels m [] in
  let m := with_loadingPromises m ∅ in
  updateMemoryUsage m.

(** The callback of [startMemoryMonitoring], run every ten seconds. *)
Definition monitorTick (m : Manager) : Manager :=
  let m := updateMemoryUsage m in
  if JS.gt (estimatedMemoryMB (this_memoryUsage m)) (maxCacheSize m)
  then performMemoryCleanup m
  else m.

(** *** Loading

    [loadModelProgressive] and [loadModelInternal] are [async]; each runs
    without interruption up to its next [await].  A call of
    [loadModelProgressive] therefore runs its checks, the synchronous start
    of [loadModelInternal] (the memory check) and the registration in
    [loadingPromises] as one step.  The underlying load of the promise then
    completes in a later step, and [loadModelProgressive] resumes in a
    later step still. *)

(** What a call of [loadModelProgressive] hands to its caller. *)
Inductive Response :=
  | Cached (model : ModelData)   (* the resident entry's data *)
  | Shared (pid : nat)           (* the promise already registered for the path *)
  | Started (pid : nat).         (* a new underlying load, registered *)

Definition touch (entry : CacheEntry) (now : Z) : CacheEntry :=
  {| data := data entry; path := path entry; memoryUsage := memoryUsage entry;
     loadTime := loadTime entry; lastAccessed := now; priority := priority entry;
     compressionApplied := compressionApplied entry |}.

Definition loadModelProgressive (m : Manager) (modelPath : string)
    (priority : Priority) (now : Z) : Manager * Response :=
  match mapGet (loadedModels m) modelPath with
  | Some cachedModel =>
      (with_loadedModels m (mapSet (loadedModels m) modelPath (touch cachedModel now)),
       Cached (data cachedModel))
  | None =>
      match loadingPromises m !! modelPath with
      | Some pid => (m, Shared pid)
      | None =>
          let m := ensureMemoryAvailable m in
          let pid := length (promises m) in
          let promise :=
            {| p_path := modelPath; p_priority := priority; p_state := Fetching |} in
          let m := with_promises m (promises m ++ [promise]) in
          (with_loadingPromises m (<[modelPath := pid]> (loadingPromises m)),
           Started pid)
      end
  end.

Definition setState (m : Manager) (pid : nat) (st : PromiseState) : Manager :=
  with_promises m
    (alter (fun p => {| p_path := p_path p; p_priority := p_priority p;
                        p_state := st |}) pid (promises m)).

(** The rest of [loadModelInternal] once the underlying load has delivered
    a model; [optimizedModel] is the model after [optimizeLoadedModel]. *)
Definition loadModelInternal_resolved (m : Manager) (pid : nat) (promise : LoadPromise)
    (optimizedModel : ModelData) (loadTime : Q) (now : Z) : Manager :=
  let cacheEntry :=
    {| data := optimizedModel;
       path := p_path promise;
       memoryUsage := calculateModelMemoryUsage optimizedModel;
       loadTime := loadTime;
       lastAccessed := now;
       priority := p_priority promise;
       compressionApplied := compressionSettings m |} in
  let m := with_loadedModels m (mapSet (loadedModels m) (p_path promise) cacheEntry) in
  let m := updateMemoryUsage m in
  setState m pid Fulfilled.

(** [loadModelProgressive] after its [await]: both branches delete the
    registration. *)
Definition loadModelProgressive_resumed (m : Manager) (pid : nat)
    (promise : LoadPromise) : Manager :=
  let m := with_loadingPromises m (delete (p_path promise) (loadingPromises m)) in
  setState m pid Settled.

Inductive Event :=
  | Load (modelPath : string) (priority : Priority) (now : Z)
  | FetchResolved (pid : nat) (optimizedModel : ModelData) (loadTime : Q) (now : Z)
  | FetchRejected (pid : nat)
  | Resume (pid : nat)
  | Evict
  | MonitorTick
  | ClearCache.

(** One atomic step; [None] when the event cannot occur in this state. *)
Definition step (m : Manager) (e : Event) : option Manager :=
  match e with
  | Load modelPath priority now => Some (loadModelProgressive m modelPath priority now).1
  | FetchResolved pid optimizedModel loadTime now =>
      match promises m !! pid with
      | Some promise =>
          match p_state promise with
          | Fetching =>
              Some (loadModelInternal_resolved m pid promise optimizedModel loadTime now)
          | _ => None
          end
      | None => None
      end
  | FetchRejected pid =>
      match promises m !! pid with
      | Some promise =>
          match p_state promise with
          | Fetching => Some (setState m pid Rejected)
          | _ => None
          end
      | None => None
      end
  | Resume pid =>
      match promises m !! pid with
      | Some promise =>
          match p_state promise with
          | Fulfilled | Rejected => Some (loadModelProgressive_resumed m pid promise)
          | _ => None
          end
      | None => None
      end
  | Evict => Some (performMemoryCleanup m)
  | MonitorTick => Some (monitorTick m)
  | ClearCache => Some (clearCache m)
  end.

Fixpoint run (m : Manager) (trace : list Event) : option Manager :=
  match trace with
  | [] => Some m
  | e :: rest =>
      match step m e with
      | Some m' => run m' rest
      | None => None
      end
  end.

(** The paths whose underlying load is in flight, one occurrence per load. *)
Definition inFlight (m : Manager) : list string :=
  p_path <$> filter (fun p => p_state p = Fetching) (promises m).

(** The sum of the [memoryUsage] fields of the resident entries. *)
Definition residentMemory (m : Manager) : Q :=
  foldr (fun model total => memoryUsage model.2 + total) 0 (loadedModels m).

(** *** Texture optimisation

    The renderer-side settings of a texture that [optimizeTextures]
    rewrites. *)
Record TextureState := {
  tex_image : option Image;
  generateMipmaps : bool;
  minFilter : Z;
  magFilter : Z;
  anisotropy : Q;
  needsUpdate : bool
}.

(** The body of the loop of [optimizeTextures] for one texture property. *)
Definition optimizeTexture (texture : option TextureState) (compressionRatio : Q)
    : option TextureState :=
  match texture with
  | Some t =>
      match tex_image t with
      | Some _ =>
          let lowEnd := Qle_bool compressionRatio (1 # 2) in
          Some {| tex_image := tex_image t;
                  generateMipmaps := if lowEnd then false else generateMipmaps t;
                  minFilter := if lowEnd then 1006%Z else minFilter t;
                  magFilter := if lowEnd then 1006%Z else magFilter t;
                  anisotropy :=
                    if JS.gt (anisotropy t) 1
                    then (let scaled := inject_Z (Qfloor (anisotropy t * compressionRatio)) in
                          if Qle_bool scaled 1 then 1 else scaled)
                    else anisotropy t;
                  needsUpdate := true |}
      | None => Some t
      end
  | None => None
  end.

(** [optimizeTextures] on the five texture properties of a material;
    nothing happens at a ratio of [1.0] or more. *)
Definition optimizeTextures (textures : list (option TextureState))
    (compressionRatio : Q) : list (option TextureState) :=
  if Qle_bool 1 compressionRatio then textures
  else (fun t => optimizeTexture t compressionRatio) <$> textures.

Local Close Scope Q_scope.

End MemoryManager.

(** ** phoenixPerformanceMonitor.js *)

Module PerformanceMonitor.

Local Open Scope Q_scope.

Record Thresholds := {
  minFPS : Q;
  maxRenderTime : Q;
  maxMemoryMB : Q;
  maxInteractionLatency : Q
}.

Definition lowThresholds : Thresholds :=
  {| minFPS := 25; maxRenderTime := 40; maxMemoryMB := 100;
     maxInteractionLatency := 150 |}.

Definition baseThresholds : list (string * Thresholds) :=
  [ ("ultra-low",
      {| minFPS := 20; maxRenderTime := 50; maxMemoryMB := 50;
         maxInteractionLatency := 200 |});
    ("low", lowThresholds);
    ("medium",
      {| minFPS := 35; maxRenderTime := 28; maxMemoryMB := 150;
         maxInteractionLatency := 100 |});
    ("high",
      {| minFPS := 50; maxRenderTime := 20; maxMemoryMB := 200;
         maxInteractionLatency := 50 |}) ].

(** [calculateThresholds]: [baseThresholds[recommendedQuality] || baseThresholds.low] *)
Definition calculateThresholds (recommendedQuality : string) : Thresholds :=
  default lowThresholds (JS.get baseThresholds recommendedQuality).

Record RenderSample := { time : Q; render_timestamp : Z }.

Record AnimationData := { fps : Q; avgDelta : Q; anim_timestamp : Z }.

Record BrowserMemory := { used : Q; total : Q; limit : Q }.

Record MemorySample := {
  modelMemory : option MemoryManager.MemoryStats;
  browserMemory : option BrowserMemory;
  mem_timestamp : Z
}.

Record Snapshot := {
  avgRenderTime : Q;
  avgFPS : Q;
  currentMemory : option MemorySample;
  timestamp : Z
}.

Record DowngradeEvent := {
  reason : string;
  performanceData : Snapshot;
  event_timestamp : Z
}.

Record Monitor := {
  renderTime : list RenderSample;
  animationFrames : list AnimationData;
  memoryUsage : list MemorySample;
  qualityDowngrades : nat;
  optimizationHistory : list DowngradeEvent;
  thresholds : Thresholds
}.

Definition sumQ (l : list Q) : Q := foldl Qplus 0 l.

(** [getCurrentPerformanceSnapshot] *)
Definition getCurrentPerformanceSnapshot (mon : Monitor) (now : Z) : Snapshot :=
  let recentRenderTimes := JS.sliceLast 10 (renderTime mon) in
  let recentAnimationFrames := JS.sliceLast 5 (animationFrames mon) in
  let recentMemory := JS.sliceLast 3 (memoryUsage mon) in
  {| avgRenderTime :=
       if (0 <? length recentRenderTimes)%nat
       then sumQ (map time recentRenderTimes) / inject_Z (Z.of_nat (length recentRenderTimes))
       else 0;
     avgFPS :=
       if (0 <? length recentAnimationFrames)%nat
       then sumQ (map fps recentAnimationFrames)
            / inject_Z (Z.of_nat (length recentAnimationFrames))
       else 60;
     currentMemory := last recentMemory;
     timestamp := now |}.

(** [(m.modelMemory?.estimatedMemoryMB || 0) + (m.browserMemory?.used || 0)] *)
Definition totalMemory (m : MemorySample) : Q :=
  MemoryManager.optNumOr
    (MemoryManager.estimatedMemoryMB ∘ MemoryManager.stats_usage <$> modelMemory m) 0
  + MemoryManager.optNumOr (used <$> browserMemory m) 0.

Definition renderTimeIssue (t : Thresholds) (s : Snapshot) : bool :=
  JS.gt (avgRenderTime s) (maxRenderTime t * (12 # 10)).

Definition fpsIssue (t : Thresholds) (s : Snapshot) : bool :=
  JS.lt (avgFPS s) (minFPS t * (8 # 10)).

Definition memoryIssue (t : Thresholds) (s : Snapshot) : bool :=
  match currentMemory s with
  | Some m => JS.gt (totalMemory m) (maxMemoryMB t * (11 # 10))
  | None => false
  end.

Definition issues (t : Thresholds) (s : Snapshot) : nat :=
  ((if renderTimeIssue t s then 1 else 0)
   + (if fpsIssue t s then 1 else 0)
   + (if memoryIssue t s then 1 else 0))%nat.

(** [shouldRecommendQualityDowngrade] *)
Definition shouldRecommendQualityDowngrade (t : Thresholds) (s : Snapshot) : bool :=
  (2 <=? issues t s)%nat.

(** [recordQualityDowngrade]: counts, logs and dispatches the event. *)
Definition recordQualityDowngrade (mon : Monitor) (s : Snapshot) (now : Z)
    : Monitor * DowngradeEvent :=
  let downgradeEvent :=
    {| reason := "Performance degradation"; performanceData := s;
       event_timestamp := now |} in
  ({| renderTime := renderTime mon; animationFrames := animationFrames mon;
      memoryUsage := memoryUsage mon;
      qualityDowngrades := S (qualityDowngrades mon);
      optimizationHistory := optimizationHistory mon ++ [downgradeEvent];
      thresholds := thresholds mon |},
   downgradeEvent).

(** The ten-second callback of [startQualityMonitoring]: the event
    dispatched to the document, if any. *)
Definition qualityCheck (mon : Monitor) (now : Z) : Monitor * option DowngradeEvent :=
  let currentPerformance := getCurrentPerformanceSnapshot mon now in
  if shouldRecommendQualityDowngrade (thresholds mon) currentPerformance then
    let '(mon', ev) := recordQualityDowngrade mon currentPerformance now in
    (mon', Some ev)
  else (mon, None).

(** The indicators against the thresholds of the tier themselves, as the
    warnings and recommendations of the monitor compare them. *)
Definition renderTimeBreach (t : Thresholds) (s : Snapshot) : bool :=
  JS.gt (avgRenderTime s) (maxRenderTime t).

Definition fpsBreach (t : Thresholds) (s : Snapshot) : bool :=
  JS.lt (avgFPS s) (minFPS t).

Definition memoryBreach (t : Thresholds) (s : Snapshot) : bool :=
  match currentMemory s with
  | Some m => JS.gt (totalMemory m) (maxMemoryMB t)
  | None => false
  end.

Definition breaches (t : Thresholds) (s : Snapshot) : nat :=
  ((if renderTimeBreach t s then 1 else 0)
   + (if fpsBreach t s then 1 else 0)
   + (if memoryBreach t s then 1 else 0))%nat.

(** The constructor: empty metrics, thresholds of the assessed tier. *)
Definition constructor (h : DeviceDetection.Host) : Monitor :=
  {| renderTime := []; animationFrames := []; memoryUsage := [];
     qualityDowngrades := 0; optimizationHistory := [];
     thresholds :=
       calculateThresholds
         (DeviceDetection.recommendedQuality
            (DeviceDetection.assessDeviceCapabilities h)) |}.

(** [recordRenderTime]: keeps the last 100 samples; the second component
    is the warning raised, if any. *)
Definition recordRenderTime (mon : Monitor) (sample : Q) (now : Z)
    : Monitor * option string :=
  ({| renderTime :=
        JS.pushShift 100 (renderTime mon) {| time := sample; render_timestamp := now |};
      animationFrames := animationFrames mon; memoryUsage := memoryUsage mon;
      qualityDowngrades := qualityDowngrades mon;
      optimizationHistory := optimizationHistory mon;
      thresholds := thresholds mon |},
   if JS.gt sample (maxRenderTime (thresholds mon)) then Some "High render time"
   else None).

(** [recordAnimationData]: keeps the last 60 samples. *)
Definition recordAnimationData (mon : Monitor) (sample : AnimationData)
    : Monitor * option string :=
  ({| renderTime := renderTime mon;
      animationFrames := JS.pushShift 60 (animationFrames mon) sample;
      memoryUsage := memoryUsage mon;
      qualityDowngrades := qualityDowngrades mon;
      optimizationHistory := optimizationHistory mon;
      thresholds := thresholds mon |},
   if JS.lt (fps sample) (minFPS (thresholds mon)) then Some "Low FPS" else None).

(** [recordMemoryUsage]: keeps the last 100 samples. *)
Definition recordMemoryUsage (mon : Monitor) (sample : MemorySample)
    : Monitor * option string :=
  ({| renderTime := renderTime mon; animationFrames := animationFrames mon;
      memoryUsage := JS.pushShift 100 (memoryUsage mon) sample;
      qualityDowngrades := qualityDowngrades mon;
      optimizationHistory := optimizationHistory mon;
      thresholds := thresholds mon |},
   if JS.gt (totalMemory sample) (maxMemoryMB (thresholds mon))
   then Some "High memory usage" else None).

(** A recommendation, without its formatted message and action list. *)
Record Recommendation := { rec_type : string; rec_priority : string }.

(** [generateOptimizationRecommendations] *)
Definition generateOptimizationRecommendations (t : Thresholds) (s : Snapshot)
    : list Recommendation :=
  (if JS.gt (avgRenderTime s) (maxRenderTime t)
   then [ {| rec_type := "rendering"; rec_priority := "high" |} ] else [])
  ++ (if JS.lt (avgFPS s) (minFPS t)
      then [ {| rec_type := "performance"; rec_priority := "high" |} ] else [])
  ++ match currentMemory s with
     | Some m =>
         if JS.gt (totalMemory m) (maxMemoryMB t)
         then [ {| rec_type := "memory"; rec_priority := "medium" |} ] else []
     | None => []
     end.

(** [analyzePerformance]: what the registered callbacks receive, if they
    are called at all. *)
Definition analyzePerformance (mon : Monitor) (now : Z)
    : option (Snapshot * list Recommendation) :=
  let snapshot := getCurrentPerformanceSnapshot mon now in
  let recommendations := generateOptimizationRecommendations (thresholds mon) snapshot in
  if (0 <? length recommendations)%nat then Some (snapshot, recommendations) else None.

Local Close Scope Q_scope.

End PerformanceMonitor.

(** ** animationOptimizer.js *)

Module AnimationOptimizer.

Record Preset := {
  frameRate : Q;
  particleCount : Z;
  enableComplexAnimations : bool;
  enableContinuousAnimations : bool;
  morphTargets : bool;
  shadowAnimations : bool;
  textureAnimations : bool
}.

Definition lowPreset : Preset :=
  {| frameRate := 30; particleCount := 10; enableComplexAnimations := false;
     enableContinuousAnimations := true; morphTargets := false;
     shadowAnimations := false; textureAnimations := false |}.

Definition ANIMATION_PRESETS : list (string * Preset) :=
  [ ("ultra-low",
      {| frameRate := 30; particleCount := 0; enableComplexAnimations := false;
         enableContinuousAnimations := false; morphTargets := false;
         shadowAnimations := false; textureAnimations := false |});
    ("low", lowPreset);
    ("medium",
      {| frameRate := 45; particleCount := 25; enableComplexAnimations := true;
         enableContinuousAnimations := true; morphTargets := false;
         shadowAnimations := false; textureAnimations := true |});
    ("high",
      {| frameRate := 60; particleCount := 50; enableComplexAnimations := true;
         enableContinuousAnimations := true; morphTargets := true;
         shadowAnimations := true; textureAnimations := true |}) ].

Record Optimizer := {
  recommendedQuality : string;      (* deviceAssessment.recommendedQuality *)
  currentPreset : option Preset;
  complexPaused : bool
}.

(** The constructor: [ANIMATION_PRESETS[quality] || ANIMATION_PRESETS.low] *)
Definition constructor (h : DeviceDetection.Host) : Optimizer :=
  let quality :=
    DeviceDetection.recommendedQuality (DeviceDetection.assessDeviceCapabilities h) in
  {| recommendedQuality := quality;
     currentPreset := JS.or (JS.get ANIMATION_PRESETS quality) (Some lowPreset);
     complexPaused := false |}.

Definition qualityLevels : list string := [ "high"; "medium"; "low"; "ultra-low" ].

(** [handlePoorPerformance] *)
Definition handlePoorPerformance (o : Optimizer) : Optimizer :=
  let currentIndex := JS.indexOf qualityLevels (recommendedQuality o) in
  if currentIndex <? Z.of_nat (length qualityLevels) - 1 then
    match JS.at_ qualityLevels (currentIndex + 1) with
    | Some newQuality =>
        {| recommendedQuality := newQuality;
           currentPreset := JS.get ANIMATION_PRESETS newQuality;
           complexPaused :=
             if String.eqb newQuality "ultra-low" then true else complexPaused o |}
    | None => o     (* the index is within the array, see [handlePoorPerformance_index] *)
    end
  else o.

(** The two-second callback of [startPerformanceMonitoring]. *)
Definition performanceCheck (o : Optimizer) (statsFps : Q) (sampleCount : Z)
    : Optimizer :=
  match currentPreset o with
  | Some preset =>
      if JS.lt statsFps (frameRate preset * (6 # 10))%Q && (60 <? sampleCount)
      then handlePoorPerformance o
      else o
  | None => o
  end.

(** The class [PerformanceMonitor] of this file: the frame-time window of
    the optimizer. *)
Record FrameMonitor := {
  frames : list Q;
  lastTime : Q;
  droppedFrames : nat;
  sampleSize : nat
}.

Definition newFrameMonitor (now : Q) : FrameMonitor :=
  {| frames := []; lastTime := now; droppedFrames := 0; sampleSize := 60 |}.

(** [recordFrame] at time [currentTime]. *)
Definition recordFrame (fm : FrameMonitor) (currentTime : Q) : FrameMonitor :=
  let deltaTime := (currentTime - lastTime fm)%Q in
  {| frames := JS.pushShift (sampleSize fm) (frames fm) deltaTime;
     lastTime := currentTime;
     droppedFrames := if JS.gt deltaTime 33 then S (droppedFrames fm) else droppedFrames fm;
     sampleSize := sampleSize fm |}.

(** [reset] *)
Definition reset (fm : FrameMonitor) : FrameMonitor :=
  {| frames := []; lastTime := lastTime fm; droppedFrames := 0;
     sampleSize := sampleSize fm |}.

Record FrameStats := {
  stats_fps : Q;
  stats_droppedFrames : nat;
  sampleCount : Z
}.

(** [getStats].  A zero average delta makes [1000 / averageDelta] infinite,
    which [Math.min] caps at 60. *)
Definition getStats (fm : FrameMonitor) : FrameStats :=
  match frames fm with
  | [] => {| stats_fps := 60; stats_droppedFrames := 0; sampleCount := 0 |}
  | _ =>
      let averageDelta :=
        (foldl Qplus 0 (frames fm) / inject_Z (Z.of_nat (length (frames fm))))%Q in
      let fps :=
        if Qeq_bool averageDelta 0 then 60%Q
        else JS.min (inject_Z (JS.round (1000 / averageDelta))) 60 in
      {| stats_fps := fps;
         stats_droppedFrames := droppedFrames fm;
         sampleCount := Z.of_nat (length (frames fm)) |}
  end.

(** The two-second callback of [startPerformanceMonitoring], reading the
    statistics of the optimizer's own frame monitor. *)
Definition monitoringTick (o : Optimizer) (fm : FrameMonitor) : Optimizer :=
  let stats := getStats fm in
  performanceCheck o (stats_fps stats) (sampleCount stats).

(** What happens to a frame monitor between two ticks. *)
Inductive FrameOp :=
  | Frame (currentTime : Q)
  | Reset.

Definition applyFrameOp (fm : FrameMonitor) (op : FrameOp) : FrameMonitor :=
  match op with
  | Frame currentTime => recordFrame fm currentTime
  | Reset => reset fm
  end.

End AnimationOptimizer.

(** ** LODManager.jsx *)

Module LODManager.

Definition ynzPaths : list (string * string) :=
  [ ("ultra-low", "/models/optimized/ynz-ultra-low.glb");
    ("low", "/models/optimized/ynz-low.glb");
    ("medium", "/models/optimized/ynz-medium.glb");
    ("high", "/models/optimized/ynz-high.glb") ].

Definition phoenixPaths : list (string * string) :=
  [ ("ultra-low", "/models/optimized/phoenix-ultra-low.glb");
    ("low", "/models/optimized/phoenix-low.glb");
    ("medium", "/models/optimized/phoenix-medium.glb");
    ("high", "/models/optimized/phoenix-high.glb") ].

Definition modelPaths : list (string * list (string * string)) :=
  [ ("ynz", ynzPaths); ("phoenix", phoenixPaths) ].

(** [getModelPath(quality, modelType)] of the component. *)
Definition getModelPath (quality modelType : string) : option string :=
  let paths := default ynzPaths (JS.get modelPaths modelType) in
  JS.or (JS.get paths quality) (JS.get paths "low").

(** The state of [OptimizedModelLoader]; the assessment object may be
    [null], and after an update of a [null] assessment it carries only the
    quality and the path. *)
Record LoaderAssessment := {
  recommendedQuality : string;
  modelPath : option string;
  loadingStrategy : option DeviceDetection.LoadingStrategy;
  performanceSettings : option DeviceDetection.PerformanceSettings
}.

Record Loader := {
  deviceAssessment : option LoaderAssessment;
  retryCount : Z;
  error : option string;
  loadingProgress : Q;
  modelType : string
}.

(** The mount effect. *)
Definition mount (h : DeviceDetection.Host) (forceQuality : option string)
    (modelType : string) : Loader :=
  let assessed := DeviceDetection.assessDeviceCapabilities h in
  let quality :=
    match forceQuality with
    | Some forced =>
        if String.eqb forced "" then DeviceDetection.recommendedQuality assessed
        else forced
    | None => DeviceDetection.recommendedQuality assessed
    end in
  {| deviceAssessment :=
       Some {| recommendedQuality := quality;
               modelPath := getModelPath quality modelType;
               loadingStrategy := Some (DeviceDetection.loadingStrategy assessed);
               performanceSettings := DeviceDetection.performanceSettings assessed |};
     retryCount := 0;
     error := None;
     loadingProgress := 0;
     modelType := modelType |}.

(** The path handed to [useGLTF]: [modelPath || '/models/optimized/ynz-low.glb'] *)
Definition requestedModel (l : Loader) : string :=
  default "/models/optimized/ynz-low.glb" (deviceAssessment l ≫= modelPath).

Definition qualityLevels : list string := [ "high"; "medium"; "low"; "ultra-low" ].

(** [deviceAssessment?.recommendedQuality || 'low'] *)
Definition currentQuality (l : Loader) : string :=
  match deviceAssessment l with
  | Some a => if String.eqb (recommendedQuality a) "" then "low" else recommendedQuality a
  | None => "low"
  end.

(** [setDeviceAssessment(prev => ({...prev, recommendedQuality, modelPath}))] *)
Definition setQuality (l : Loader) (quality : string) : option LoaderAssessment :=
  Some {| recommendedQuality := quality;
          modelPath := getModelPath quality (modelType l);
          loadingStrategy := deviceAssessment l ≫= loadingStrategy;
          performanceSettings := deviceAssessment l ≫= performanceSettings |}.

(** [loadingStrategy?.retryAttempts || 1] *)
Definition retryLimit (l : Loader) : Z :=
  match deviceAssessment l ≫= loadingStrategy with
  | Some s =>
      if DeviceDetection.retryAttempts s =? 0 then 1
      else DeviceDetection.retryAttempts s
  | None => 1
  end.

(** [handleLoadingError] *)
Definition handleLoadingError (l : Loader) (errorType : string) : Loader :=
  if retryCount l <? retryLimit l then
    let currentIndex := JS.indexOf qualityLevels (currentQuality l) in
    let fallbackIndex := Z.min (currentIndex + 1) (Z.of_nat (length qualityLevels) - 1) in
    match JS.at_ qualityLevels fallbackIndex with
    | Some fallbackQuality =>
        {| deviceAssessment := setQuality l fallbackQuality;
           retryCount := retryCount l + 1;
           error := None;
           loadingProgress := 0;
           modelType := modelType l |}
    | None => l     (* the index is within the array, see [handleLoadingError_index] *)
    end
  else
    {| deviceAssessment := deviceAssessment l;
       retryCount := retryCount l;
       error := Some ("Failed to load 3D model: " ++ errorType);
       loadingProgress := loadingProgress l;
       modelType := modelType l |}.

(** The automatic downgrade after three consecutive seconds of low FPS. *)
Definition downgradeQuality (l : Loader) : Loader :=
  let currentIndex := JS.indexOf qualityLevels (currentQuality l) in
  if currentIndex <? Z.of_nat (length qualityLevels) - 1 then
    match JS.at_ qualityLevels (currentIndex + 1) with
    | Some lowerQuality =>
        {| deviceAssessment := setQuality l lowerQuality;
           retryCount := retryCount l;
           error := error l;
           loadingProgress := loadingProgress l;
           modelType := modelType l |}
    | None => l     (* the index is within the array, see [downgradeQuality_index] *)
    end
  else l.

(** One per-second evaluation of [checkPerformance] with the frames counted
    in that second; [lowFPSCount] is the counter local to the effect. *)
Definition checkPerformance (l : Loader) (lowFPSCount : Z) (maxFPS : Q) (fps : Q)
    : Loader * Z :=
  if JS.lt fps (maxFPS * (7 # 10))%Q then
    let lowFPSCount := lowFPSCount + 1 in
    if 3 <=? lowFPSCount then (downgradeQuality l, 0)
    else (l, lowFPSCount)
  else (l, 0).

End LODManager.

(** ** performanceTesting.js *)

Module PerformanceTesting.

Local Open Scope Q_scope.

Record LoadingTime := {
  lt_modelPath : string;
  duration : option Q;              (* [null] for a failed load *)
  lt_quality : string;
  lt_timestamp : Z;
  success : bool
}.

Record MemoryInfo := { used : Q; total : Q; limit : Q; mem_timestamp : Z }.

Record Metrics := {
  loadingTimes : list LoadingTime;
  frameRates : list Q;
  memoryUsage : list MemoryInfo;
  qualityLevels : list string;
  deviceInfo : option DeviceDetection.Assessment
}.

(** The metrics set up by the constructor of [PerformanceMetrics]. *)
Definition emptyMetrics : Metrics :=
  {| loadingTimes := []; frameRates := []; memoryUsage := [];
     qualityLevels := []; deviceInfo := None |}.

(** [recordLoadingTime] *)
Definition recordLoadingTime (m : Metrics) (modelPath : string) (startTime endTime : Q)
    (quality : string) (now : Z) : Metrics :=
  {| loadingTimes :=
       loadingTimes m ++
       [ {| lt_modelPath := modelPath; duration := Some (endTime - startTime);
            lt_quality := quality; lt_timestamp := now; success := true |} ];
     frameRates := frameRates m; memoryUsage := memoryUsage m;
     qualityLevels := (qualityLevels m ++ [quality])%list;
     deviceInfo := deviceInfo m |}.

(** [recordLoadingFailure]; the text of the error is not kept. *)
Definition recordLoadingFailure (m : Metrics) (modelPath : string) (quality : string)
    (now : Z) : Metrics :=
  {| loadingTimes :=
       loadingTimes m ++
       [ {| lt_modelPath := modelPath; duration := None;
            lt_quality := quality; lt_timestamp := now; success := false |} ];
     frameRates := frameRates m; memoryUsage := memoryUsage m;
     qualityLevels := qualityLevels m;
     deviceInfo := deviceInfo m |}.

(** [getQualityDistribution]: [distribution[quality] = (distribution[quality] || 0) + 1]
    for each recorded quality, over the own keys of the object. *)
Definition getQualityDistribution (m : Metrics) : gmap string nat :=
  foldl (fun distribution quality =>
           <[quality := (default 0%nat (distribution !! quality) + 1)%nat]> distribution)
        ∅ (qualityLevels m).

(** [calculateMemoryGrowth] *)
Definition calculateMemoryGrowth (memoryUsage : list MemoryInfo) : Q :=
  if (length memoryUsage <? 2)%nat then 0
  else match head memoryUsage, last memoryUsage with
       | Some first, Some latest => used latest - used first
       | _, _ => 0
       end.

(** The [successRate] field of [getReport]. *)
Definition successRate (m : Metrics) : Q :=
  let succeeded := filter (fun l => success l = true) (loadingTimes m) in
  if (0 <? length (loadingTimes m))%nat
  then inject_Z (Z.of_nat (length succeeded))
       / inject_Z (Z.of_nat (length (loadingTimes m))) * 100
  else 0.

Record TargetMetrics := {
  minFPS : Q;
  maxLoadingTime : Q;
  maxMemoryUsage : Q;
  minSuccessRate : Q
}.

(** The targets set by the constructor of [PerformanceTestSuite]. *)
Definition targetMetrics (isMobile : bool) : TargetMetrics :=
  {| minFPS := if isMobile then 25 else 45;
     maxLoadingTime := 5000;
     maxMemoryUsage := if isMobile then 200 else 500;
     minSuccessRate := 95 |}.

(** The fields of a performance report that the recommendations read. *)
Record Report := {
  device : option DeviceDetection.Assessment;
  averageFPS : Q;
  peakUsage : Q;
  memoryGrowth : Q;
  averageLoadingTime : Q
}.

Record Recommendation := { rec_type : string; rec_priority : string }.

(** [generateRecommendations], without the formatted messages.  On a
    mobile device the last test reads [device.recommendedQuality]; with a
    [null] device that access throws, which is [None] here. *)
Definition generateRecommendations (isMobile : bool) (target : TargetMetrics)
    (report : Report) : option (list Recommendation) :=
  let recommendations :=
    ((if JS.lt (averageFPS report) (minFPS target)
      then [ {| rec_type := "performance"; rec_priority := "high" |} ] else [])
     ++ (if JS.gt (peakUsage report) (maxMemoryUsage target)
         then [ {| rec_type := "memory"; rec_priority := "high" |} ] else [])
     ++ (if JS.gt (averageLoadingTime report) (maxLoadingTime target)
         then [ {| rec_type := "loading"; rec_priority := "medium" |} ] else [])
     ++ (if JS.gt (memoryGrowth report) 50
         then [ {| rec_type := "memory"; rec_priority := "high" |} ] else []))%list in
  if isMobile then
    match device report with
    | Some assessment =>
        if String.eqb (DeviceDetection.recommendedQuality assessment) "high"
        then Some (recommendations
                   ++ [ {| rec_type := "mobile"; rec_priority := "medium" |} ])%list
        else Some recommendations
    | None => None
    end
  else Some recommendations.

Local Close Scope Q_scope.

End PerformanceTesting.

(** ** Notions used to state the properties *)

Module Spec.
Import DeviceDetection.

(** The same host behind another network connection. *)
Definition withConnection (h : Host) (c : option Connection) : Host :=
  {| isMobile := isMobile h; isTablet := isTablet h; glContext := glContext h;
     deviceMemory := deviceMemory h; connection := c;
     devicePixelRatio := devicePixelRatio h |}.

(** One step down in [ultra-low < low < medium < high]; the lowest tier and
    the sentinel ['none'] stay where they are. *)
Definition oneStepBelow (quality : string) : string :=
  if String.eqb quality "high" then "medium"
  else if String.eqb quality "medium" then "low"
  else if String.eqb quality "low" then "ultra-low"
  else quality.

(** The position of a tier in [ultra-low < low < medium < high]. *)
Definition tierRank (quality : string) : option nat :=
  if String.eqb quality "ultra-low" then Some 0%nat
  else if String.eqb quality "low" then Some 1%nat
  else if String.eqb quality "medium" then Some 2%nat
  else if String.eqb quality "high" then Some 3%nat
  else None.

(** [Math.round(x * 100) / 100] *)
Definition round2 (x : Q) : Q := (inject_Z (JS.round (x * 100)) / 100)%Q.

(** The accounting invariant: the reported figure is the rounded sum. *)
Definition accounted (m : MemoryManager.Manager) : Prop :=
  (MemoryManager.estimatedMemoryMB (MemoryManager.this_memoryUsage m)
   == round2 (MemoryManager.residentMemory m))%Q.

(** Every promise whose caller has not resumed yet is the one registered
    for its path. *)
Definition registered (m : MemoryManager.Manager) : Prop :=
  forall pid promise,
    MemoryManager.promises m !! pid = Some promise ->
    MemoryManager.p_state promise <> MemoryManager.Settled ->
    MemoryManager.loadingPromises m !! MemoryManager.p_path promise = Some pid.

(** A path whose load is in flight is not resident. *)
Definition notResident (m : MemoryManager.Manager) : Prop :=
  forall pid promise,
    MemoryManager.promises m !! pid = Some promise ->
    MemoryManager.p_state promise = MemoryManager.Fetching ->
    MemoryManager.mapGet (MemoryManager.loadedModels m) (MemoryManager.p_path promise)
      = None.

(** No load is pending: every promise created so far has completed and
    its caller has resumed. *)
Definition quiescent (m : MemoryManager.Manager) : bool :=
  forallb (fun p => bool_decide (MemoryManager.p_state p = MemoryManager.Settled))
          (MemoryManager.promises m).

(** Along the run, [clearCache] is only called in quiescent states. *)
Fixpoint clearsWhenQuiescent (m : MemoryManager.Manager)
    (trace : list MemoryManager.Event) : bool :=
  match trace with
  | [] => true
  | e :: rest =>
      match e with
      | MemoryManager.ClearCache => quiescent m
      | _ => true
      end
      && match MemoryManager.step m e with
         | Some m' => clearsWhenQuiescent m' rest
         | None => true
         end
  end.

(** The sum of the [memoryUsage] fields of a list of entries. *)
Definition usageOf (l : MemoryManager.ModelMap) : Q :=
  foldr (fun model total => (MemoryManager.memoryUsage model.2 + total)%Q) 0%Q l.

(** The keys of the cache are distinct, and every entry is filed under its
    own path. *)
Definition wellKeyed (m : MemoryManager.Manager) : Prop :=
  NoDup (fst <$> MemoryManager.loadedModels m) /\
  forall k e, (k, e) ∈ MemoryManager.loadedModels m -> MemoryManager.path e = k.

(** How the anisotropy of one texture may change under optimisation: it
    never grows, a value above 1 never drops below 1, and the image stays. *)
Definition tamed (before after : option MemoryManager.TextureState) : Prop :=
  match before, after with
  | Some t, Some t' =>
      (MemoryManager.anisotropy t' <= MemoryManager.anisotropy t)%Q /\
      ((1 < MemoryManager.anisotropy t)%Q -> (1 <= MemoryManager.anisotropy t')%Q) /\
      MemoryManager.tex_image t' = MemoryManager.tex_image t
  | None, None => True
  | _, _ => False
  end.

(** One measurement handed to the runtime monitor. *)
Inductive MonitorSample :=
  | RenderSampleAt (t : Q) (now : Z)
  | AnimationSampleOf (d : PerformanceMonitor.AnimationData)
  | MemorySampleOf (s : PerformanceMonitor.MemorySample).

Definition record (mon : PerformanceMonitor.Monitor) (sample : MonitorSample)
    : PerformanceMonitor.Monitor :=
  match sample with
  | RenderSampleAt t now => (PerformanceMonitor.recordRenderTime mon t now).1
  | AnimationSampleOf d => (PerformanceMonitor.recordAnimationData mon d).1
  | MemorySampleOf s => (PerformanceMonitor.recordMemoryUsage mon s).1
  end.

Definition renderSamples (samples : list MonitorSample)
    : list PerformanceMonitor.RenderSample :=
  omap (fun sample =>
          match sample with
          | RenderSampleAt t now =>
              Some {| PerformanceMonitor.time := t;
                      PerformanceMonitor.render_timestamp := now |}
          | _ => None
          end) samples.

Definition animationSamples (samples : list MonitorSample)
    : list PerformanceMonitor.AnimationData :=
  omap (fun sample =>
          match sample with AnimationSampleOf d => Some d | _ => None end) samples.

Definition memorySamples (samples : list MonitorSample)
    : list PerformanceMonitor.MemorySample :=
  omap (fun sample =>
          match sample with MemorySampleOf s => Some s | _ => None end) samples.

(** A per-second frame count below 70% of the target. *)
Definition lowFPS (maxFPS fps : Q) : bool := JS.lt fps (maxFPS * (7 # 10))%Q.

(** Whether three consecutive samples are all low. *)
Fixpoint threeLows (maxFPS : Q) (samples : list Q) : bool :=
  match samples with
  | [] => false
  | a :: rest =>
      match rest with
      | b :: c :: _ => lowFPS maxFPS a && lowFPS maxFPS b && lowFPS maxFPS c
      | _ => false
      end
      || threeLows maxFPS rest
  end.

(** The loader and its low-FPS counter after one more second. *)
Definition observe (maxFPS : Q) (st : LODManager.Loader * Z) (fps : Q)
    : LODManager.Loader * Z :=
  LODManager.checkPerformance st.1 st.2 maxFPS fps.

(** A successful or failed load reported to the test metrics. *)
Inductive LoadReport :=
  | Loaded (modelPath : string) (startTime endTime : Q) (quality : string) (now : Z)
  | Failed (modelPath : string) (quality : string) (now : Z).

Definition report (m : PerformanceTesting.Metrics) (r : LoadReport)
    : PerformanceTesting.Metrics :=
  match r with
  | Loaded modelPath startTime endTime quality now =>
      PerformanceTesting.recordLoadingTime m modelPath startTime endTime quality now
  | Failed modelPath quality now =>
      PerformanceTesting.recordLoadingFailure m modelPath quality now
  end.

(** The qualities of the successful loads among the reports, in order. *)
Definition loadedQualities (reports : list LoadReport) : list string :=
  omap (fun r => match r with
                 | Loaded _ _ _ quality _ => Some quality
                 | Failed _ _ _ => None
                 end) reports.

(** How often a quality occurs in a list. *)
Definition occurrences (quality : string) (qualities : list string) : nat :=
  length (filter (fun q => q = quality) qualities).

End Spec.

(** ** Concrete devices, models and runs *)

Module Examples.
Import DeviceDetection.

Definition fast4g : option Connection :=
  Some {| effectiveType := "4g"; downlink := 20 |}.

Definition slow2g : option Connection :=
  Some {| effectiveType := "2g"; downlink := 1 # 4 |}.

(** A phone with a high-tier GPU and 4 GB of memory. *)
Definition phone : Host :=
  {| isMobile := true; isTablet := false;
     glContext := Some {| debugRenderer := Some "Apple A15 GPU";
                          glMaxTextureSize := 16384; hasWebgl2 := true |};
     deviceMemory := Some 4%Q;
     connection := fast4g;
     devicePixelRatio := 3 |}.

(** The same phone reporting 2.9296875 GB, that is exactly 3000 MB. *)
Definition phone3000 : Host :=
  {| isMobile := true; isTablet := false;
     glContext := glContext phone;
     deviceMemory := Some (375 # 128)%Q;
     connection := fast4g;
     devicePixelRatio := 3 |}.

(** A desktop with an unknown renderer and small textures: GPU tier LOW. *)
Definition oldDesktop : Host :=
  {| isMobile := false; isTablet := false;
     glContext := Some {| debugRenderer := None;
                          glMaxTextureSize := 1024; hasWebgl2 := false |};
     deviceMemory := Some 8%Q;
     connection := fast4g;
     devicePixelRatio := 1 |}.

(** The same desktop behind a 2g connection. *)
Definition oldDesktop2g : Host := Spec.withConnection oldDesktop slow2g.

(** A desktop on which no WebGL context can be created. *)
Definition noWebGL : Host :=
  {| isMobile := false; isTablet := false;
     glContext := None;
     deviceMemory := Some 8%Q;
     connection := fast4g;
     devicePixelRatio := 1 |}.

(** A model whose only resource is one 3840 x 2048 texture: 30 MB. *)
Definition noTextures : MemoryManager.Material :=
  {| MemoryManager.map_ := None; MemoryManager.normalMap := None;
     MemoryManager.roughnessMap := None; MemoryManager.metalnessMap := None;
     MemoryManager.emissiveMap := None |}.

Definition texturedModel (w h : Q) : MemoryManager.ModelData :=
  {| MemoryManager.nodes := None;
     MemoryManager.materials :=
       Some [ {| MemoryManager.map_ :=
                   Some {| MemoryManager.image :=
                             Some {| MemoryManager.width := Some w;
                                     MemoryManager.height := Some h |} |};
                 MemoryManager.normalMap := None;
                 MemoryManager.roughnessMap := None;
                 MemoryManager.metalnessMap := None;
                 MemoryManager.emissiveMap := None |} ] |}.

Definition model30MB : MemoryManager.ModelData := texturedModel 3840 2048.

(** A model with one 256 x 128 texture: 0.125 MB. *)
Definition modelEighthMB : MemoryManager.ModelData := texturedModel 256 128.

(** The manager of [oldDesktop]: quality ['low'], cache ceiling 100 MB. *)
Definition manager : MemoryManager.Manager :=
  MemoryManager.init oldDesktop (JS.get MemoryManager.compressionTable "low").

(** Three loads with priorities low, high, normal that complete at the
    same instant, followed by a cleanup. *)
Definition threeLoads : list MemoryManager.Event :=
  [ MemoryManager.Load "/models/a.glb" MemoryManager.PLow 1000;
    MemoryManager.Load "/models/b.glb" MemoryManager.PHigh 1000;
    MemoryManager.Load "/models/c.glb" MemoryManager.PNormal 1000;
    MemoryManager.FetchResolved 0 model30MB 5 2000;
    MemoryManager.FetchResolved 1 model30MB 5 2000;
    MemoryManager.FetchResolved 2 model30MB 5 2000 ].

Definition threeLoadsThenCleanup : list MemoryManager.Event :=
  threeLoads ++ [ MemoryManager.Evict ].

(** One load that completes. *)
Definition oneLoad : list MemoryManager.Event :=
  [ MemoryManager.Load "/models/a.glb" MemoryManager.PNormal 1000;
    MemoryManager.FetchResolved 0 modelEighthMB 5 2000 ].

(** A load, a cache clear while that load is in flight, and a second load
    of the same path. *)
Definition loadClearLoad : list MemoryManager.Event :=
  [ MemoryManager.Load "/models/a.glb" MemoryManager.PNormal 1000;
    MemoryManager.ClearCache;
    MemoryManager.Load "/models/a.glb" MemoryManager.PNormal 1500 ].

(** Two loads of one path while the first is in flight. *)
Definition twoLoads : list MemoryManager.Event :=
  [ MemoryManager.Load "/models/a.glb" MemoryManager.PNormal 1000;
    MemoryManager.Load "/models/a.glb" MemoryManager.PHigh 1500 ].

(** A desktop with an unlisted renderer, large textures and WebGL 2. *)
Definition gamingDesktop : Host :=
  {| isMobile := false; isTablet := false;
     glContext := Some {| debugRenderer := Some "NVIDIA GeForce RTX 3080";
                          glMaxTextureSize := 16384; hasWebgl2 := true |};
     deviceMemory := Some 8%Q;
     connection := fast4g;
     devicePixelRatio := 2 |}.

(** Per-second frame counts: two low seconds, a good one, one low one. *)
Definition fpsSamples : list Q := [ 20; 18; 59; 21 ]%Q.

(** A load that fails twice and then succeeds, and one more success. *)
Definition loadReports : list Spec.LoadReport :=
  [ Spec.Failed "/models/optimized/ynz-high.glb" "high" 100;
    Spec.Failed "/models/optimized/ynz-medium.glb" "medium" 200;
    Spec.Loaded "/models/optimized/ynz-low.glb" 200 900 "low" 900;
    Spec.Loaded "/models/optimized/phoenix-low.glb" 900 1300 "low" 1300 ].

(** A monitor for the ['high'] tier that has seen slow frames and a low
    frame rate, but no memory sample. *)
Definition strugglingMonitor : PerformanceMonitor.Monitor :=
  {| PerformanceMonitor.renderTime :=
       [ {| PerformanceMonitor.time := 30; PerformanceMonitor.render_timestamp := 1000 |};
         {| PerformanceMonitor.time := 32; PerformanceMonitor.render_timestamp := 1016 |} ];
     PerformanceMonitor.animationFrames :=
       [ {| PerformanceMonitor.fps := 20; PerformanceMonitor.avgDelta := 50;
            PerformanceMonitor.anim_timestamp := 1000 |} ];
     PerformanceMonitor.memoryUsage := [];
     PerformanceMonitor.qualityDowngrades := 0;
     PerformanceMonitor.optimizationHistory := [];
     PerformanceMonitor.thresholds := PerformanceMonitor.calculateThresholds "high" |}.

End Examples.

(** * Properties *)

(** ** Numbers and arrays *)

Lemma gt_true (x y : Q) : JS.gt x y = true <-> (y < x)%Q.
Proof.
  unfold JS.gt. destruct (Qle_bool x y) eqn:E; simpl.
  - apply Qle_bool_iff in E. split; [discriminate | intros H; exfalso].
    exact (Qlt_not_le _ _ H E).
  - split; [intros _ | reflexivity].
    apply Qnot_le_lt. intros H. apply Qle_bool_iff in H. congruence.
Qed.

Lemma gt_false (x y : Q) : JS.gt x y = false <-> (x <= y)%Q.
Proof.
  unfold JS.gt. destruct (Qle_bool x y) eqn:E; simpl.
  - apply Qle_bool_iff in E. split; [intros _; exact E | reflexivity].
  - split; [discriminate | intros H]. apply Qle_bool_iff in H. congruence.
Qed.

Lemma lt_true (x y : Q) : JS.lt x y = true <-> (x < y)%Q.
Proof. unfold JS.lt. apply (gt_true y x). Qed.

Lemma indexOf_bounds (arr : list string) (x : string) :
  -1 <= JS.indexOf arr x < Z.of_nat (length arr).
Proof.
  induction arr as [|y rest IH]; simpl; [lia|].
  destruct (String.eqb y x); [lia|].
  destruct (JS.indexOf rest x <? 0) eqn:E; lia.
Qed.

Lemma at_in_range {A} (arr : list A) (i : Z) :
  0 <= i < Z.of_nat (length arr) -> is_Some (JS.at_ arr i).
Proof.
  intros H. unfold JS.at_.
  destruct (i <? 0) eqn:E; [lia|].
  apply lookup_lt_is_Some. lia.
Qed.

(** ** Capability assessment *)

Section Assessment.
Import DeviceDetection.

Lemma unsupported_tier (h : Host) :
  glContext h = None -> tier (getWebGLCapabilities h) = NONE.
Proof. intros H. unfold getWebGLCapabilities. rewrite H. reflexivity. Qed.

Lemma tier_supported (h : Host) :
  tier (getWebGLCapabilities h) <> NONE -> supported (getWebGLCapabilities h) = true.
Proof.
  unfold getWebGLCapabilities. destruct (glContext h); simpl; [reflexivity|].
  intros H. contradiction.
Qed.

(** The five values the assessment chooses from. *)
Lemma baseQuality_cases (mobile : bool) (w : WebGLInfo) (mem : Q) :
  baseQuality mobile w mem ∈ qualityLevels.
Proof.
  unfold baseQuality, qualityLevels.
  repeat match goal with |- context [if ?b then _ else _] => destruct b end;
    set_solver.
Qed.

(** The index computed in the network adjustment is inside the array, so
    the array read never yields [undefined]. *)
Lemma adjustForNetwork_index (q : string) :
  1 < JS.indexOf qualityLevels q ->
  is_Some (JS.at_ qualityLevels (JS.indexOf qualityLevels q - 1)).
Proof.
  intros H. apply at_in_range.
  pose proof (indexOf_bounds qualityLevels q). lia.
Qed.

Lemma adjust_not_slow (net : NetworkQuality) (q : string) :
  net <> SLOW -> adjustForNetwork net q = q.
Proof. intros H. unfold adjustForNetwork. destruct net; simpl; congruence. Qed.

End Assessment.

Section AssessmentClaims.
Import DeviceDetection Spec.

Lemma baseQuality_mobile_high (w : WebGLInfo) (mem : Q) :
  supported w = true -> tier w = HIGH -> (3000 < mem)%Q ->
  baseQuality true w mem = "medium".
Proof.
  intros Hs Ht Hm. unfold baseQuality. rewrite Hs, Ht. simpl.
  apply gt_true in Hm. rewrite Hm. reflexivity.
Qed.

Lemma baseQuality_desktop_low (w : WebGLInfo) (mem : Q) :
  supported w = true -> tier w = LOW -> baseQuality false w mem = "low".
Proof. intros Hs Ht. unfold baseQuality. rewrite Hs, Ht. reflexivity. Qed.

Lemma adjust_slow (q : string) :
  q ∈ qualityLevels -> adjustForNetwork SLOW q = oneStepBelow q.
Proof.
  unfold qualityLevels. intros H.
  repeat (apply elem_of_cons in H as [-> | H]; [reflexivity|]).
  by apply elem_of_nil in H.
Qed.

End AssessmentClaims.

(** C4, as stated, fails at the boundary: a mobile device with a HIGH GPU,
    exactly 3000 MB of estimated memory and a fast network is recommended
    ['low'], not ['medium']. *)
Lemma C4_boundary_counterexample :
  DeviceDetection.isMobile Examples.phone3000 = true /\
  DeviceDetection.tier (DeviceDetection.getWebGLCapabilities Examples.phone3000)
    = DeviceDetection.HIGH /\
  (3000 <= DeviceDetection.estimateAvailableMemory Examples.phone3000)%Q /\
  DeviceDetection.getNetworkQuality Examples.phone3000 <> DeviceDetection.SLOW /\
  DeviceDetection.recommendedQuality
    (DeviceDetection.assessDeviceCapabilities Examples.phone3000) = "low" /\
  DeviceDetection.recommendedQuality
    (DeviceDetection.assessDeviceCapabilities Examples.phone3000) <> "medium".
Proof.
  repeat split; try reflexivity; try discriminate.
Qed.

(** C4 (amended): for every mobile device with GPU tier HIGH, estimated
    memory strictly greater than 3000 MB and a network that is not slow,
    the recommended quality is exactly ['medium']. *)
Theorem C4_mobile_cap (h : DeviceDetection.Host) :
  DeviceDetection.isMobile h = true ->
  DeviceDetection.tier (DeviceDetection.getWebGLCapabilities h) = DeviceDetection.HIGH ->
  (3000 < DeviceDetection.estimateAvailableMemory h)%Q ->
  DeviceDetection.getNetworkQuality h <> DeviceDetection.SLOW ->
  DeviceDetection.recommendedQuality (DeviceDetection.assessDeviceCapabilities h)
    = "medium".
Proof.
  intros Hm Ht Hmem Hnet.
  unfold DeviceDetection.assessDeviceCapabilities; simpl.
  rewrite adjust_not_slow by assumption.
  rewrite Hm. apply baseQuality_mobile_high; try assumption.
  apply tier_supported. rewrite Ht. discriminate.
Qed.

Lemma C4_mobile_cap_witness :
  DeviceDetection.recommendedQuality
    (DeviceDetection.assessDeviceCapabilities Examples.phone) = "medium".
Proof.
  apply (C4_mobile_cap Examples.phone).
  - reflexivity.
  - reflexivity.
  - reflexivity.
  - discriminate.
Defined.

(** C5, as stated, fails on a slow network: a desktop with GPU tier LOW
    behind a 2g connection is recommended ['ultra-low'], not ['low']. *)
Lemma C5_slow_counterexample :
  DeviceDetection.isMobile Examples.oldDesktop2g = false /\
  DeviceDetection.tier (DeviceDetection.getWebGLCapabilities Examples.oldDesktop2g)
    = DeviceDetection.LOW /\
  DeviceDetection.recommendedQuality
    (DeviceDetection.assessDeviceCapabilities Examples.oldDesktop2g) = "ultra-low" /\
  DeviceDetection.recommendedQuality
    (DeviceDetection.assessDeviceCapabilities Examples.oldDesktop2g) <> "low".
Proof.
  repeat split; try reflexivity; try discriminate.
Qed.

(** C5 (amended): for every desktop device with GPU tier LOW the recommended
    quality does not depend on the estimated memory; it is ['low'] when the
    network is not slow and ['ultra-low'] when the network is slow. *)
Theorem C5_desktop_low (h : DeviceDetection.Host) :
  DeviceDetection.isMobile h = false ->
  DeviceDetection.tier (DeviceDetection.getWebGLCapabilities h) = DeviceDetection.LOW ->
  DeviceDetection.recommendedQuality (DeviceDetection.assessDeviceCapabilities h)
    = if DeviceDetection.NetworkQuality_eqb (DeviceDetection.getNetworkQuality h)
           DeviceDetection.SLOW
      then "ultra-low" else "low".
Proof.
  intros Hm Ht.
  unfold DeviceDetection.assessDeviceCapabilities; simpl.
  rewrite Hm, baseQuality_desktop_low; try assumption.
  - destruct (DeviceDetection.getNetworkQuality h); reflexivity.
  - apply tier_supported. rewrite Ht. discriminate.
Qed.

Lemma C5_desktop_low_witness :
  DeviceDetection.recommendedQuality
    (DeviceDetection.assessDeviceCapabilities Examples.oldDesktop) = "low" /\
  DeviceDetection.recommendedQuality
    (DeviceDetection.assessDeviceCapabilities Examples.oldDesktop2g) = "ultra-low".
Proof.
  split.
  - apply (C5_desktop_low Examples.oldDesktop); reflexivity.
  - apply (C5_desktop_low Examples.oldDesktop2g); reflexivity.
Defined.

(** C6: for every device, the quality recommended behind a slow connection
    is exactly one step below the quality recommended for the same device
    behind a connection that is not slow; ['ultra-low'] and ['none'] are
    left unchanged. *)
Theorem C6_slow_network_step (h : DeviceDetection.Host)
    (slow other : option DeviceDetection.Connection) :
  DeviceDetection.getNetworkQuality (Spec.withConnection h slow) = DeviceDetection.SLOW ->
  DeviceDetection.getNetworkQuality (Spec.withConnection h other) <> DeviceDetection.SLOW ->
  DeviceDetection.recommendedQuality
    (DeviceDetection.assessDeviceCapabilities (Spec.withConnection h slow))
  = Spec.oneStepBelow
      (DeviceDetection.recommendedQuality
         (DeviceDetection.assessDeviceCapabilities (Spec.withConnection h other))).
Proof.
  intros Hslow Hother.
  unfold DeviceDetection.assessDeviceCapabilities; simpl.
  rewrite Hslow, (adjust_not_slow _ _ Hother).
  apply adjust_slow, baseQuality_cases.
Qed.

Lemma C6_slow_network_step_witness :
  DeviceDetection.recommendedQuality
    (DeviceDetection.assessDeviceCapabilities
       (Spec.withConnection Examples.phone Examples.slow2g))
  = Spec.oneStepBelow
      (DeviceDetection.recommendedQuality
         (DeviceDetection.assessDeviceCapabilities
            (Spec.withConnection Examples.phone Examples.fast4g))).
Proof.
  apply (C6_slow_network_step Examples.phone Examples.slow2g Examples.fast4g).
  - reflexivity.
  - discriminate.
Defined.

(** ** The sentinel tier ['none'] *)

Lemma unsupported_none (h : DeviceDetection.Host) :
  DeviceDetection.glContext h = None ->
  DeviceDetection.recommendedQuality (DeviceDetection.assessDeviceCapabilities h)
    = "none".
Proof.
  intros H. unfold DeviceDetection.assessDeviceCapabilities; simpl.
  unfold DeviceDetection.getWebGLCapabilities. rewrite H.
  destruct (DeviceDetection.getNetworkQuality h); reflexivity.
Qed.

(** Whatever the device, an unsupported probe yields the asset of ['low']:
    the [null] entry of the table is overridden by the fallback. *)
Lemma unsupported_modelPath (h : DeviceDetection.Host) :
  DeviceDetection.glContext h = None ->
  DeviceDetection.modelPath (DeviceDetection.assessDeviceCapabilities h)
    = Some "/models/optimized/ynz-low.glb".
Proof.
  intros H.
  change (DeviceDetection.modelPath (DeviceDetection.assessDeviceCapabilities h))
    with (DeviceDetection.getModelPath
            (DeviceDetection.recommendedQuality
               (DeviceDetection.assessDeviceCapabilities h))).
  rewrite (unsupported_none h H). reflexivity.
Qed.

(** C3 (the code departs from the claim): on a device without WebGL the
    assessment does return ['none'], but the configuration built for it
    carries the asset path and render settings of ['low'], and the loader
    component hands that path to the model loader. *)
Theorem C3_none_absorbed_into_low :
  DeviceDetection.supported (DeviceDetection.getWebGLCapabilities Examples.noWebGL)
    = false /\
  DeviceDetection.recommendedQuality
    (DeviceDetection.assessDeviceCapabilities Examples.noWebGL) = "none" /\
  DeviceDetection.entry DeviceDetection.modelPaths "none" = None /\
  DeviceDetection.modelPath (DeviceDetection.assessDeviceCapabilities Examples.noWebGL)
    = Some "/models/optimized/ynz-low.glb" /\
  DeviceDetection.modelPath (DeviceDetection.assessDeviceCapabilities Examples.noWebGL)
    = DeviceDetection.getModelPath "low" /\
  DeviceDetection.performanceSettings
    (DeviceDetection.assessDeviceCapabilities Examples.noWebGL)
    = DeviceDetection.getPerformanceSettings Examples.noWebGL "low" /\
  LODManager.requestedModel (LODManager.mount Examples.noWebGL None "ynz")
    = "/models/optimized/ynz-low.glb".
Proof.
  repeat split; reflexivity.
Qed.

(** ** Runtime tier changes *)

Section TierChanges.
Import Spec.

Lemma handlePoorPerformance_index (q : string) :
  JS.indexOf AnimationOptimizer.qualityLevels q
    < Z.of_nat (length AnimationOptimizer.qualityLevels) - 1 ->
  is_Some (JS.at_ AnimationOptimizer.qualityLevels
             (JS.indexOf AnimationOptimizer.qualityLevels q + 1)).
Proof.
  intros H. apply at_in_range.
  pose proof (indexOf_bounds AnimationOptimizer.qualityLevels q). lia.
Qed.

Lemma handleLoadingError_index (q : string) :
  is_Some (JS.at_ LODManager.qualityLevels
             (Z.min (JS.indexOf LODManager.qualityLevels q + 1)
                    (Z.of_nat (length LODManager.qualityLevels) - 1))).
Proof.
  apply at_in_range.
  pose proof (indexOf_bounds LODManager.qualityLevels q). simpl in *. lia.
Qed.

Lemma downgradeQuality_index (q : string) :
  JS.indexOf LODManager.qualityLevels q
    < Z.of_nat (length LODManager.qualityLevels) - 1 ->
  is_Some (JS.at_ LODManager.qualityLevels
             (JS.indexOf LODManager.qualityLevels q + 1)).
Proof.
  intros H. apply at_in_range.
  pose proof (indexOf_bounds LODManager.qualityLevels q). lia.
Qed.

(** On the four tiers the animation optimizer steps down by one, or stays
    at the lowest. *)
Lemma handlePoorPerformance_on_tiers (o : AnimationOptimizer.Optimizer) (r : nat) :
  tierRank (AnimationOptimizer.recommendedQuality o) = Some r ->
  tierRank (AnimationOptimizer.recommendedQuality
              (AnimationOptimizer.handlePoorPerformance o)) = Some (pred r).
Proof.
  destruct o as [q preset paused]; simpl.
  unfold tierRank, AnimationOptimizer.handlePoorPerformance; simpl.
  destruct (String.eqb q "ultra-low") eqn:E0.
  { apply String.eqb_eq in E0 as ->. intros [= <-]. reflexivity. }
  destruct (String.eqb q "low") eqn:E1.
  { apply String.eqb_eq in E1 as ->. intros [= <-]. reflexivity. }
  destruct (String.eqb q "medium") eqn:E2.
  { apply String.eqb_eq in E2 as ->. intros [= <-]. reflexivity. }
  destruct (String.eqb q "high") eqn:E3; [|discriminate].
  apply String.eqb_eq in E3 as ->. intros [= <-]. reflexivity.
Qed.

Lemma tierRank_cases (q : string) (r : nat) :
  tierRank q = Some r ->
  q = "ultra-low" /\ r = 0%nat \/ q = "low" /\ r = 1%nat \/
  q = "medium" /\ r = 2%nat \/ q = "high" /\ r = 3%nat.
Proof.
  unfold tierRank.
  destruct (String.eqb_spec q "ultra-low") as [-> | _]; [intros [= <-]; auto|].
  destruct (String.eqb_spec q "low") as [-> | _]; [intros [= <-]; auto|].
  destruct (String.eqb_spec q "medium") as [-> | _]; [intros [= <-]; auto|].
  destruct (String.eqb_spec q "high") as [-> | _]; [intros [= <-]; auto 10|].
  discriminate.
Qed.

(** On the four tiers the loader's low-FPS downgrade steps down by one, or
    stays at the lowest. *)
Lemma downgradeQuality_on_tiers (l : LODManager.Loader) (r : nat) :
  tierRank (LODManager.currentQuality l) = Some r ->
  tierRank (LODManager.currentQuality (LODManager.downgradeQuality l))
    = Some (pred r).
Proof.
  intros H. unfold LODManager.downgradeQuality.
  destruct (tierRank_cases _ _ H) as [[E ->] | [[E ->] | [[E ->] | [E ->]]]];
    rewrite E; simpl; try reflexivity.
  rewrite E. reflexivity.
Qed.

(** On the four tiers a retried loading error steps down by one, or stays
    at the lowest; once the retries are used up the tier is kept. *)
Lemma handleLoadingError_on_tiers (l : LODManager.Loader) (errorType : string)
    (r : nat) :
  tierRank (LODManager.currentQuality l) = Some r ->
  tierRank (LODManager.currentQuality (LODManager.handleLoadingError l errorType))
    = Some (if LODManager.retryCount l <? LODManager.retryLimit l then pred r else r).
Proof.
  intros H. unfold LODManager.handleLoadingError.
  destruct (LODManager.retryCount l <? LODManager.retryLimit l); [|exact H].
  destruct (tierRank_cases _ _ H) as [[E ->] | [[E ->] | [[E ->] | [E ->]]]];
    rewrite E; reflexivity.
Qed.

End TierChanges.

(** C9 (the code departs from the claim): from the sentinel tier ['none'],
    which the assessment produces on a device without WebGL, each automatic
    tier change selects ['high']: the animation optimizer's downgrade, the
    loader's fallback after a loading error, and the loader's downgrade
    after sustained low FPS. *)
Theorem C9_none_is_raised_to_high :
  AnimationOptimizer.recommendedQuality
    (AnimationOptimizer.constructor Examples.noWebGL) = "none" /\
  AnimationOptimizer.recommendedQuality
    (AnimationOptimizer.handlePoorPerformance
       (AnimationOptimizer.constructor Examples.noWebGL)) = "high" /\
  LODManager.currentQuality (LODManager.mount Examples.noWebGL None "ynz") = "none" /\
  LODManager.currentQuality
    (LODManager.handleLoadingError
       (LODManager.mount Examples.noWebGL None "ynz") "timeout") = "high" /\
  LODManager.currentQuality
    (LODManager.downgradeQuality (LODManager.mount Examples.noWebGL None "ynz"))
    = "high".
Proof.
  repeat split; reflexivity.
Qed.

(** ** Compression settings *)

Section Compression.
Import MemoryManager.


(** Outside the table the call never returns, however deep the recursion
    is allowed to go. *)
Lemma getCompressionSettings_unkeyed (quality : string) :
  JS.get compressionTable quality = None ->
  forall fuel, getCompressionSettings fuel quality = OutOfFuel.
Proof.
  intros H fuel.
  induction fuel as [|fuel IH]; cbn [getCompressionSettings]; [reflexivity|].
  rewrite H, IH. reflexivity.
Qed.

End Compression.

(** C10 (the code departs from the claim): for the recommended quality
    ['none'] the compression-settings lookup does not return at any
    recursion depth, and so neither does the construction of the memory
    manager on a device without WebGL. *)
Theorem C10_none_never_returns (fuel : nat) :
  MemoryManager.getCompressionSettings fuel "none" = MemoryManager.OutOfFuel /\
  MemoryManager.constructor fuel Examples.noWebGL = MemoryManager.OutOfFuel.
Proof.
  assert (H : MemoryManager.getCompressionSettings fuel "none" = MemoryManager.OutOfFuel)
    by (apply getCompressionSettings_unkeyed; reflexivity).
  split; [exact H|].
  unfold MemoryManager.constructor.
  rewrite (unsupported_none Examples.noWebGL eq_refl), H. reflexivity.
Qed.

(** ** The degrade decision of the runtime monitor *)

Section Degrade.
Import PerformanceMonitor.

Lemma thresholds_positive (q : string) :
  (0 < minFPS (calculateThresholds q))%Q /\
  (0 < maxRenderTime (calculateThresholds q))%Q /\
  (0 < maxMemoryMB (calculateThresholds q))%Q.
Proof.
  unfold calculateThresholds, baseThresholds. simpl.
  repeat match goal with |- context [if ?b then _ else _] => destruct b end;
    simpl; repeat split; reflexivity.
Qed.

Variable t : Thresholds.
Hypothesis fps_pos : (0 < minFPS t)%Q.
Hypothesis render_pos : (0 < maxRenderTime t)%Q.
Hypothesis memory_pos : (0 < maxMemoryMB t)%Q.

Lemma renderTimeIssue_breach (s : Snapshot) :
  renderTimeIssue t s = true -> renderTimeBreach t s = true.
Proof.
  unfold renderTimeIssue, renderTimeBreach. rewrite !gt_true. lra.
Qed.

Lemma fpsIssue_breach (s : Snapshot) :
  fpsIssue t s = true -> fpsBreach t s = true.
Proof.
  unfold fpsIssue, fpsBreach. rewrite !lt_true. lra.
Qed.

Lemma memoryIssue_breach (s : Snapshot) :
  memoryIssue t s = true -> memoryBreach t s = true.
Proof.
  unfold memoryIssue, memoryBreach.
  destruct (currentMemory s); [|discriminate].
  rewrite !gt_true. lra.
Qed.

(** Every indicator the decision counts is a breach of the tier's own
    threshold. *)
Lemma issues_le_breaches (s : Snapshot) : (issues t s <= breaches t s)%nat.
Proof.
  unfold issues, breaches.
  pose proof (renderTimeIssue_breach s). pose proof (fpsIssue_breach s).
  pose proof (memoryIssue_breach s).
  destruct (renderTimeIssue t s), (fpsIssue t s), (memoryIssue t s);
    repeat match goal with H : true = true -> _ |- _ => rewrite (H eq_refl) end;
    destruct (renderTimeBreach t s), (fpsBreach t s), (memoryBreach t s);
    simpl; lia.
Qed.

Lemma recommend_two_breaches (s : Snapshot) :
  shouldRecommendQualityDowngrade t s = true -> (2 <= breaches t s)%nat.
Proof.
  unfold shouldRecommendQualityDowngrade. intros H.
  apply Nat.leb_le in H. pose proof (issues_le_breaches s). lia.
Qed.

End Degrade.

Lemma qualityCheck_fires (mon : PerformanceMonitor.Monitor) (now : Z) :
  (PerformanceMonitor.qualityCheck mon now).2 <> None <->
  PerformanceMonitor.shouldRecommendQualityDowngrade
    (PerformanceMonitor.thresholds mon)
    (PerformanceMonitor.getCurrentPerformanceSnapshot mon now) = true.
Proof.
  unfold PerformanceMonitor.qualityCheck.
  destruct (PerformanceMonitor.shouldRecommendQualityDowngrade _ _); simpl.
  - split; [reflexivity | discriminate].
  - split; [contradiction | discriminate].
Qed.

(** A single breached indicator never fires the degrade event. *)
Lemma single_breach_never_fires (q : string) (mon : PerformanceMonitor.Monitor)
    (now : Z) :
  PerformanceMonitor.thresholds mon = PerformanceMonitor.calculateThresholds q ->
  (PerformanceMonitor.breaches (PerformanceMonitor.thresholds mon)
     (PerformanceMonitor.getCurrentPerformanceSnapshot mon now) <= 1)%nat ->
  (PerformanceMonitor.qualityCheck mon now).2 = None.
Proof.
  intros Ht Hb.
  destruct (PerformanceMonitor.qualityCheck mon now).2 eqn:E; [exfalso|reflexivity].
  assert (Hfire : (PerformanceMonitor.qualityCheck mon now).2 <> None) by congruence.
  apply qualityCheck_fires in Hfire.
  destruct (thresholds_positive q) as (H1 & H2 & H3). rewrite <- Ht in H1, H2, H3.
  pose proof (recommend_two_breaches _ H1 H2 H3 _ Hfire). lia.
Qed.

(** C8: whenever the periodic quality check of the monitor recommends a
    downgrade (and dispatches the degrade event), at least two of the three
    indicators (average render time, average FPS, memory) breach the
    thresholds of the tier at once; the decision itself counts at least two
    indicators beyond the scaled thresholds. *)
Theorem C8_degrade_needs_two_indicators (q : string)
    (mon : PerformanceMonitor.Monitor) (now : Z) (ev : PerformanceMonitor.DowngradeEvent) :
  PerformanceMonitor.thresholds mon = PerformanceMonitor.calculateThresholds q ->
  (PerformanceMonitor.qualityCheck mon now).2 = Some ev ->
  (2 <= PerformanceMonitor.issues (PerformanceMonitor.thresholds mon)
          (PerformanceMonitor.getCurrentPerformanceSnapshot mon now))%nat /\
  (2 <= PerformanceMonitor.breaches (PerformanceMonitor.thresholds mon)
          (PerformanceMonitor.getCurrentPerformanceSnapshot mon now))%nat.
Proof.
  intros Ht Hev.
  assert (Hfire : (PerformanceMonitor.qualityCheck mon now).2 <> None) by congruence.
  apply qualityCheck_fires in Hfire.
  destruct (thresholds_positive q) as (H1 & H2 & H3). rewrite <- Ht in H1, H2, H3.
  split.
  - unfold PerformanceMonitor.shouldRecommendQualityDowngrade in Hfire.
    by apply Nat.leb_le in Hfire.
  - exact (recommend_two_breaches _ H1 H2 H3 _ Hfire).
Qed.

Lemma C8_degrade_needs_two_indicators_witness :
  (2 <= PerformanceMonitor.issues
          (PerformanceMonitor.thresholds Examples.strugglingMonitor)
          (PerformanceMonitor.getCurrentPerformanceSnapshot
             Examples.strugglingMonitor 2000))%nat /\
  (2 <= PerformanceMonitor.breaches
          (PerformanceMonitor.thresholds Examples.strugglingMonitor)
          (PerformanceMonitor.getCurrentPerformanceSnapshot
             Examples.strugglingMonitor 2000))%nat.
Proof.
  apply (C8_degrade_needs_two_indicators "high" Examples.strugglingMonitor 2000
           {| PerformanceMonitor.reason := "Performance degradation";
              PerformanceMonitor.performanceData :=
                PerformanceMonitor.getCurrentPerformanceSnapshot
                  Examples.strugglingMonitor 2000;
              PerformanceMonitor.event_timestamp := 2000 |}).
  - reflexivity.
  - reflexivity.
Defined.

(** ** The asset cache: memory accounting *)

Section Accounting.
Import MemoryManager Spec.
Local Open Scope Q_scope.

Lemma numOr_zero (x : Q) : numOr x 0 == x.
Proof.
  unfold numOr. destruct (Qeq_bool x 0) eqn:E; [|reflexivity].
  apply Qeq_bool_iff in E. symmetry. exact E.
Qed.

Lemma foldl_usage (l : ModelMap) (acc : Q) :
  foldl (fun total model => total + numOr (memoryUsage model.2) 0) acc l
  == acc + foldr (fun model total => memoryUsage model.2 + total) 0 l.
Proof.
  revert acc. induction l as [|x l IH]; intros acc; simpl.
  - ring.
  - rewrite IH, numOr_zero. ring.
Qed.

(** The two sums of the source agree with the plain sum. *)
Lemma getCurrentMemoryUsage_sum (m : Manager) :
  getCurrentMemoryUsage m == residentMemory m.
Proof.
  unfold getCurrentMemoryUsage, residentMemory. rewrite foldl_usage. ring.
Qed.

Lemma round2_comp (x y : Q) : x == y -> round2 x == round2 y.
Proof.
  intros H. unfold round2, JS.round.
  assert (E : Qfloor (x * 100 + (1 # 2)) = Qfloor (y * 100 + (1 # 2))).
  { apply Qfloor_comp. rewrite H. reflexivity. }
  rewrite E. reflexivity.
Qed.

(** Rounding to two decimals moves a number by at most 0.005. *)
Lemma round2_close (x : Q) : - (1 # 200) < round2 x - x <= 1 # 200.
Proof.
  unfold round2, JS.round.
  pose proof (Qfloor_le (x * 100 + (1 # 2))) as Hle.
  pose proof (Qlt_floor (x * 100 + (1 # 2))) as Hlt.
  rewrite inject_Z_plus in Hlt.
  set (n := inject_Z (Qfloor (x * 100 + (1 # 2)))) in *.
  change (inject_Z 1) with 1 in Hlt.
  assert (E : n / 100 == n * (1 # 100)) by reflexivity.
  rewrite E. split; lra.
Qed.

Lemma accounted_updateMemoryUsage (m : Manager) : accounted (updateMemoryUsage m).
Proof.
  unfold accounted, updateMemoryUsage; simpl.
  change (inject_Z (JS.round (?x * 100)) / 100) with (round2 x).
  apply round2_comp.
  unfold residentMemory; simpl. rewrite foldl_usage. ring.
Qed.

Lemma accounted_performMemoryCleanup (m : Manager) :
  accounted (performMemoryCleanup m).
Proof.
  unfold performMemoryCleanup.
  destruct (evictLoop _ _ _ _ _) as [loaded log].
  apply accounted_updateMemoryUsage.
Qed.

Lemma accounted_ensureMemoryAvailable (m : Manager) :
  accounted m -> accounted (ensureMemoryAvailable m).
Proof.
  intros H. unfold ensureMemoryAvailable.
  destruct (JS.gt _ _); [apply accounted_performMemoryCleanup | exact H].
Qed.

Lemma usage_touch (l : ModelMap) (key : string) (entry : CacheEntry) (now : Z) :
  mapGet l key = Some entry ->
  foldr (fun model total => memoryUsage model.2 + total) 0
        (mapSet l key (touch entry now))
  = foldr (fun model total => memoryUsage model.2 + total) 0 l.
Proof.
  unfold mapGet. induction l as [|[k v] l IH]; simpl; [discriminate|].
  destruct (String.eqb k key); simpl.
  - intros [= ->]. reflexivity.
  - intros H. rewrite (IH H). reflexivity.
Qed.

Lemma accounted_loadModelProgressive (m : Manager) (modelPath : string)
    (priority : Priority) (now : Z) :
  accounted m -> accounted (loadModelProgressive m modelPath priority now).1.
Proof.
  intros H. unfold loadModelProgressive.
  destruct (mapGet (loadedModels m) modelPath) as [cached|] eqn:E.
  - unfold accounted, residentMemory in *; simpl.
    rewrite (usage_touch _ _ _ now E). exact H.
  - destruct (loadingPromises m !! modelPath); [exact H|].
    apply accounted_ensureMemoryAvailable in H. exact H.
Qed.

Lemma accounted_step (m m' : Manager) (e : Event) :
  accounted m -> step m e = Some m' -> accounted m'.
Proof.
  intros H. destruct e; simpl.
  - intros [= <-]. by apply accounted_loadModelProgressive.
  - destruct (promises m !! pid) as [promise|]; [|discriminate].
    destruct (p_state promise); try discriminate.
    intros [= <-]. unfold loadModelInternal_resolved.
    exact (accounted_updateMemoryUsage _).
  - destruct (promises m !! pid) as [promise|]; [|discriminate].
    destruct (p_state promise); try discriminate.
    intros [= <-]. exact H.
  - destruct (promises m !! pid) as [promise|]; [|discriminate].
    destruct (p_state promise); try discriminate; intros [= <-]; exact H.
  - intros [= <-]. apply accounted_performMemoryCleanup.
  - intros [= <-]. unfold monitorTick.
    destruct (JS.gt _ _);
      [apply accounted_performMemoryCleanup | apply accounted_updateMemoryUsage].
  - intros [= <-]. unfold clearCache. apply accounted_updateMemoryUsage.
Qed.

Lemma accounted_run (trace : list Event) (m m' : Manager) :
  accounted m -> run m trace = Some m' -> accounted m'.
Proof.
  revert m. induction trace as [|e trace IH]; intros m H; simpl.
  - intros [= <-]. exact H.
  - destruct (step m e) as [m1|] eqn:E; [|discriminate].
    apply IH. exact (accounted_step _ _ _ H E).
Qed.

Lemma accounted_init (h : DeviceDetection.Host)
    (settings : option CompressionSettings) :
  accounted (init h settings).
Proof. unfold accounted. reflexivity. Qed.

End Accounting.

(** C2, as stated, fails: after one load of a model with a single
    256 x 128 texture the resident entries sum to 0.125 MB, while the
    statistics report 0.13 MB. *)
Lemma C2_rounding_counterexample :
  exists m : MemoryManager.Manager,
    MemoryManager.run Examples.manager Examples.oneLoad = Some m /\
    (MemoryManager.residentMemory m == 1 # 8)%Q /\
    (MemoryManager.estimatedMemoryMB
       (MemoryManager.stats_usage (MemoryManager.getMemoryStats m)) == 13 # 100)%Q /\
    ~ (MemoryManager.residentMemory m
       == MemoryManager.estimatedMemoryMB
            (MemoryManager.stats_usage (MemoryManager.getMemoryStats m)))%Q.
Proof.
  eexists. split; [reflexivity|].
  repeat split; try reflexivity.
  intros H. vm_compute in H. discriminate H.
Qed.

(** C2 (amended): after any finite sequence of operations on the cache
    (loads, load completions, evictions, monitor ticks, cache clears), the
    [estimatedMemoryMB] reported by the statistics is the sum of the
    [memoryUsage] fields of the resident entries rounded to two decimals,
    and so differs from that sum by at most 0.005. *)
Theorem C2_stats_are_rounded_sum (h : DeviceDetection.Host)
    (settings : option MemoryManager.CompressionSettings)
    (trace : list MemoryManager.Event) (m : MemoryManager.Manager) :
  MemoryManager.run (MemoryManager.init h settings) trace = Some m ->
  (MemoryManager.estimatedMemoryMB
     (MemoryManager.stats_usage (MemoryManager.getMemoryStats m))
   == Spec.round2 (MemoryManager.residentMemory m))%Q /\
  (- (1 # 200)
   < MemoryManager.estimatedMemoryMB
       (MemoryManager.stats_usage (MemoryManager.getMemoryStats m))
     - MemoryManager.residentMemory m
   <= 1 # 200)%Q.
Proof.
  intros Hrun.
  pose proof (accounted_run _ _ _ (accounted_init h settings) Hrun) as H.
  unfold Spec.accounted in H. simpl. split; [exact H|].
  rewrite H. apply round2_close.
Qed.

Lemma C2_stats_are_rounded_sum_witness :
  exists m : MemoryManager.Manager,
    MemoryManager.run Examples.manager Examples.threeLoadsThenCleanup = Some m /\
    (MemoryManager.estimatedMemoryMB
       (MemoryManager.stats_usage (MemoryManager.getMemoryStats m))
     == Spec.round2 (MemoryManager.residentMemory m))%Q.
Proof.
  eexists. split; [vm_compute; reflexivity|].
  apply (C2_stats_are_rounded_sum Examples.oldDesktop
           (JS.get MemoryManager.compressionTable "low")
           Examples.threeLoadsThenCleanup).
  vm_compute. reflexivity.
Defined.

(** ** The asset cache: one load in flight per path *)

Section Dedup.
Import MemoryManager Spec.

Lemma mapGet_mapSet_ne (l : ModelMap) (k k' : string) (v : CacheEntry) :
  k <> k' -> mapGet (mapSet l k v) k' = mapGet l k'.
Proof.
  intros Hne. unfold mapGet.
  induction l as [|[k0 v0] l IH]; simpl.
  - destruct (String.eqb_spec k k'); [contradiction | reflexivity].
  - destruct (String.eqb_spec k0 k) as [-> | Hk]; simpl.
    + destruct (String.eqb_spec k k'); [contradiction | reflexivity].
    + destruct (String.eqb_spec k0 k'); [reflexivity | exact IH].
Qed.

Lemma mapGet_mapDelete_None (l : ModelMap) (k k' : string) :
  mapGet l k = None -> mapGet (mapDelete l k') k = None.
Proof.
  unfold mapGet. induction l as [|[k0 v0] l IH]; simpl; [reflexivity|].
  destruct (String.eqb_spec k0 k) as [-> | Hk]; [discriminate|].
  intros H. destruct (String.eqb_spec k0 k'); [exact H|].
  simpl. destruct (String.eqb_spec k0 k); [contradiction | exact (IH H)].
Qed.

Lemma evictLoop_None (target : Q) (sorted : ModelMap) (k : string) :
  forall usage loaded log,
    mapGet loaded k = None ->
    mapGet (evictLoop target sorted usage loaded log).1 k = None.
Proof.
  induction sorted as [|[modelPath model] sorted IH]; intros usage loaded log H;
    simpl; [exact H|].
  destruct (Qle_bool usage target); [exact H|].
  apply IH. by apply mapGet_mapDelete_None.
Qed.

(** A step that leaves the promises and their registration alone and at
    most removes resident entries. *)
Definition shrinks (m m' : Manager) : Prop :=
  promises m' = promises m /\
  loadingPromises m' = loadingPromises m /\
  forall k, mapGet (loadedModels m) k = None -> mapGet (loadedModels m') k = None.

Lemma shrinks_refl (m : Manager) : shrinks m m.
Proof. repeat split; auto. Qed.

Lemma shrinks_updateMemoryUsage (m : Manager) : shrinks m (updateMemoryUsage m).
Proof. repeat split; auto. Qed.

Lemma shrinks_performMemoryCleanup (m : Manager) : shrinks m (performMemoryCleanup m).
Proof.
  unfold performMemoryCleanup.
  pose proof (evictLoop_None (maxCacheSize m * (6 # 10))%Q
                (JS.sort compareModels (loadedModels m))) as H.
  destruct (evictLoop _ _ _ _ _) as [loaded log] eqn:E.
  repeat split; simpl; try reflexivity.
  intros k Hk.
  specialize (H k (getCurrentMemoryUsage m) (loadedModels m) (disposed m) Hk).
  rewrite E in H. exact H.
Qed.

Lemma shrinks_ensureMemoryAvailable (m : Manager) :
  shrinks m (ensureMemoryAvailable m).
Proof.
  unfold ensureMemoryAvailable.
  destruct (JS.gt _ _); [apply shrinks_performMemoryCleanup | apply shrinks_refl].
Qed.

Lemma shrinks_monitorTick (m : Manager) : shrinks m (monitorTick m).
Proof.
  unfold monitorTick. destruct (JS.gt _ _); [|apply shrinks_updateMemoryUsage].
  destruct (shrinks_performMemoryCleanup (updateMemoryUsage m)) as (H1 & H2 & H3).
  repeat split; [exact H1 | exact H2 | exact H3].
Qed.

Lemma registered_shrinks (m m' : Manager) :
  shrinks m m' -> registered m -> registered m'.
Proof.
  intros (Hp & Hl & _) H pid promise. rewrite Hp, Hl. apply H.
Qed.

Lemma notResident_shrinks (m m' : Manager) :
  shrinks m m' -> notResident m -> notResident m'.
Proof.
  intros (Hp & _ & Hk) H pid promise. rewrite Hp. intros H1 H2.
  apply Hk. exact (H pid promise H1 H2).
Qed.

(** Two promises that are both unsettled and share a path are the same. *)
Lemma registered_unique (m : Manager) (i j : nat) (p q : LoadPromise) :
  registered m ->
  promises m !! i = Some p -> promises m !! j = Some q ->
  p_state p <> Settled -> p_state q <> Settled ->
  p_path p = p_path q -> i = j.
Proof.
  intros H Hi Hj Hp Hq Hpath.
  pose proof (H i p Hi Hp) as E1. pose proof (H j q Hj Hq) as E2.
  rewrite Hpath in E1. congruence.
Qed.

Lemma lookup_setState (m : Manager) (pid j : nat) (st : PromiseState) (q : LoadPromise) :
  promises (setState m pid st) !! j = Some q ->
  exists q0, promises m !! j = Some q0 /\ p_path q = p_path q0 /\
             (j = pid /\ p_state q = st \/ j <> pid /\ q = q0).
Proof.
  unfold setState; simpl.
  destruct (decide (pid = j)) as [-> | Hne].
  - rewrite list_lookup_alter_eq.
    destruct (promises m !! j) as [q0|]; simpl; [|discriminate].
    intros [= <-]. exists q0. simpl. auto.
  - rewrite list_lookup_alter_ne by exact Hne.
    intros H. exists q. split; [exact H|]. split; [reflexivity|]. right. auto.
Qed.

Lemma quiescent_settled (m : Manager) (pid : nat) (promise : LoadPromise) :
  quiescent m = true -> promises m !! pid = Some promise -> p_state promise = Settled.
Proof.
  unfold quiescent. intros H Hl.
  rewrite forallb_forall in H.
  apply list_elem_of_lookup_2, list_elem_of_In in Hl.
  specialize (H _ Hl). by apply bool_decide_eq_true in H.
Qed.

Lemma dedup_load (m : Manager) (modelPath : string) (priority : Priority) (now : Z) :
  registered m -> notResident m ->
  registered (loadModelProgressive m modelPath priority now).1 /\
  notResident (loadModelProgressive m modelPath priority now).1.
Proof.
  intros HR HN. unfold loadModelProgressive.
  destruct (mapGet (loadedModels m) modelPath) as [cached|] eqn:Eget; simpl.
  { split; [exact HR|].
    intros pid promise H1 H2; simpl in *.
    pose proof (HN pid promise H1 H2) as Hnone.
    rewrite mapGet_mapSet_ne; [exact Hnone|]. congruence. }
  destruct (loadingPromises m !! modelPath) as [pid0|] eqn:Elp; simpl.
  { split; assumption. }
  pose proof (shrinks_ensureMemoryAvailable m) as Hs.
  pose proof (registered_shrinks _ _ Hs HR) as HR1.
  pose proof (notResident_shrinks _ _ Hs HN) as HN1.
  destruct Hs as (Hp & Hl & Hk).
  set (m1 := ensureMemoryAvailable m) in *.
  split.
  - intros pid promise; simpl. rewrite lookup_app_Some.
    intros [Hold | [Hlen Hnew]] Hst.
    + pose proof (HR1 pid promise Hold Hst) as Hreg.
      rewrite lookup_insert_ne; [exact Hreg|].
      intros ->. rewrite Hl in Hreg. congruence.
    + destruct (pid - length (promises m1))%nat as [|n] eqn:En; [|destruct n; discriminate].
      injection Hnew as <-. simpl.
      replace pid with (length (promises m1)) by lia.
      apply lookup_insert_eq.
  - intros pid promise; simpl. rewrite lookup_app_Some.
    intros [Hold | [Hlen Hnew]] Hst.
    + exact (HN1 pid promise Hold Hst).
    + destruct (pid - length (promises m1))%nat as [|n] eqn:En; [|destruct n; discriminate].
      injection Hnew as <-. simpl. apply Hk. exact Eget.
Qed.

Lemma dedup_step (m m' : Manager) (e : Event) :
  (e = ClearCache -> quiescent m = true) ->
  registered m -> notResident m -> step m e = Some m' ->
  registered m' /\ notResident m'.
Proof.
  intros Hclear HR HN. destruct e; simpl.
  - intros [= <-]. by apply dedup_load.
  - (* the underlying load delivers *)
    destruct (promises m !! pid) as [promise|] eqn:Ep; [|discriminate].
    destruct (p_state promise) eqn:Est; try discriminate.
    intros [= <-]. unfold loadModelInternal_resolved.
    assert (Hun : p_state promise <> Settled) by congruence.
    split.
    + intros j q Hj Hq.
      apply lookup_setState in Hj as (q0 & Hj0 & Hpath & Hcase). simpl in Hj0.
      rewrite Hpath. simpl. apply (HR j q0 Hj0).
      destruct Hcase as [[-> _] | [_ ->]]; [congruence | exact Hq].
    + intros j q Hj Hq.
      apply lookup_setState in Hj as (q0 & Hj0 & Hpath & Hcase). simpl in Hj0.
      destruct Hcase as [[_ Hst] | [Hne ->]]; [congruence|].
      simpl. rewrite mapGet_mapSet_ne; [exact (HN j q0 Hj0 Hq)|].
      intros Heq. apply Hne.
      apply (registered_unique m j pid q0 promise HR Hj0 Ep); congruence.
  - (* the underlying load fails *)
    destruct (promises m !! pid) as [promise|] eqn:Ep; [|discriminate].
    destruct (p_state promise) eqn:Est; try discriminate.
    intros [= <-]. split.
    + intros j q Hj Hq.
      apply lookup_setState in Hj as (q0 & Hj0 & Hpath & Hcase).
      rewrite Hpath. simpl. apply (HR j q0 Hj0).
      destruct Hcase as [[-> _] | [_ ->]]; [congruence | exact Hq].
    + intros j q Hj Hq.
      apply lookup_setState in Hj as (q0 & Hj0 & Hpath & Hcase).
      destruct Hcase as [[_ Hst] | [Hne ->]]; [congruence|].
      exact (HN j q0 Hj0 Hq).
  - (* the caller resumes *)
    destruct (promises m !! pid) as [promise|] eqn:Ep; [|discriminate].
    assert (Hstep : (p_state promise = Fulfilled \/ p_state promise = Rejected) ->
                    registered (loadModelProgressive_resumed m pid promise) /\
                    notResident (loadModelProgressive_resumed m pid promise)).
    { intros Hst. assert (Hun : p_state promise <> Settled) by (destruct Hst; congruence).
      unfold loadModelProgressive_resumed. split.
      - intros j q Hj Hq.
        apply lookup_setState in Hj as (q0 & Hj0 & Hpath & Hcase). simpl in Hj0.
        destruct Hcase as [[_ Hs] | [Hne ->]]; [congruence|].
        simpl. rewrite lookup_delete_ne; [exact (HR j q0 Hj0 Hq)|].
        intros Heq. apply Hne.
        apply (registered_unique m j pid q0 promise HR Hj0 Ep); congruence.
      - intros j q Hj Hq.
        apply lookup_setState in Hj as (q0 & Hj0 & Hpath & Hcase). simpl in Hj0.
        destruct Hcase as [[_ Hs] | [Hne ->]]; [congruence|].
        exact (HN j q0 Hj0 Hq). }
    destruct (p_state promise) eqn:Est; try discriminate;
      intros [= <-]; apply Hstep; auto.
  - intros [= <-]. pose proof (shrinks_performMemoryCleanup m) as Hs.
    split; [by eapply registered_shrinks | by eapply notResident_shrinks].
  - intros [= <-]. pose proof (shrinks_monitorTick m) as Hs.
    split; [by eapply registered_shrinks | by eapply notResident_shrinks].
  - intros [= <-]. specialize (Hclear eq_refl).
    split; intros j q Hj Hq; simpl in Hj;
      pose proof (quiescent_settled m j q Hclear Hj); congruence.
Qed.

Lemma dedup_run (trace : list Event) (m m' : Manager) :
  clearsWhenQuiescent m trace = true ->
  registered m -> notResident m -> run m trace = Some m' ->
  registered m' /\ notResident m'.
Proof.
  revert m. induction trace as [|e trace IH]; intros m Hc HR HN; simpl.
  - intros [= <-]. auto.
  - simpl in Hc. apply andb_true_iff in Hc as [Hq Hrest].
    destruct (step m e) as [m1|] eqn:E; [|discriminate].
    assert (Hclear : e = ClearCache -> quiescent m = true) by (intros ->; exact Hq).
    destruct (dedup_step m m1 e Hclear HR HN E) as [HR1 HN1].
    exact (IH m1 Hrest HR1 HN1).
Qed.

Lemma dedup_init (h : DeviceDetection.Host) (settings : option CompressionSettings) :
  registered (init h settings) /\ notResident (init h settings).
Proof. split; intros pid promise H; simpl in H; discriminate. Qed.

Lemma NoDup_fmap_filter {A B} (f : A -> B) (P : A -> Prop)
    `{!forall x, Decision (P x)} (l : list A) :
  (forall i j x y, l !! i = Some x -> l !! j = Some y -> P x -> P y ->
                   f x = f y -> i = j) ->
  NoDup (f <$> filter P l).
Proof.
  induction l as [|a l IH]; intros Huniq; [constructor|].
  assert (Htail : forall i j x y, l !! i = Some x -> l !! j = Some y -> P x -> P y ->
                                  f x = f y -> i = j).
  { intros i j x y Hi Hj Px Py Hf.
    assert (S i = S j) by (apply (Huniq (S i) (S j) x y); assumption). lia. }
  rewrite filter_cons. destruct (decide (P a)) as [Pa|]; [|exact (IH Htail)].
  rewrite fmap_cons. apply NoDup_cons. split; [|exact (IH Htail)].
  intros Hin. apply list_elem_of_fmap in Hin as (y & Hf & Hy).
  apply list_elem_of_filter in Hy as [Py Hy].
  apply list_elem_of_lookup_1 in Hy as [j Hj].
  assert (0%nat = S j) by (apply (Huniq 0%nat (S j) a y); auto). discriminate.
Qed.

End Dedup.

(** C7, as stated, fails once [clearCache] is called while a load is in
    flight: the registration of the pending load is dropped, a further
    request for the same path starts a second underlying load, and two
    loads of that path are then in flight. *)
Lemma C7_clear_counterexample :
  ((fun m => MemoryManager.p_state <$> MemoryManager.promises m !! 0%nat)
     <$> MemoryManager.run Examples.manager
           [ MemoryManager.Load "/models/a.glb" MemoryManager.PNormal 1000;
             MemoryManager.ClearCache ])
    = Some (Some MemoryManager.Fetching) /\
  ((fun m => (MemoryManager.loadModelProgressive m "/models/a.glb"
                MemoryManager.PNormal 1500).2)
     <$> MemoryManager.run Examples.manager
           [ MemoryManager.Load "/models/a.glb" MemoryManager.PNormal 1000;
             MemoryManager.ClearCache ])
    = Some (MemoryManager.Started 1) /\
  MemoryManager.inFlight <$> MemoryManager.run Examples.manager Examples.loadClearLoad
    = Some [ "/models/a.glb"; "/models/a.glb" ] /\
  ~ NoDup [ "/models/a.glb"; "/models/a.glb" ].
Proof.
  repeat split; try (vm_compute; reflexivity).
  intros H. apply NoDup_cons in H as [Hn _]. apply Hn. left.
Qed.

(** C7 (amended): in every run in which [clearCache] is only called when
    no load is pending, at most one underlying load per path is in flight,
    and while the load of a path is in flight every further request for
    that path returns the promise registered for it and changes nothing,
    so no second load is started. *)
Theorem C7_one_load_in_flight (h : DeviceDetection.Host)
    (settings : option MemoryManager.CompressionSettings)
    (trace : list MemoryManager.Event) (m : MemoryManager.Manager) :
  Spec.clearsWhenQuiescent (MemoryManager.init h settings) trace = true ->
  MemoryManager.run (MemoryManager.init h settings) trace = Some m ->
  NoDup (MemoryManager.inFlight m) /\
  forall (pid : nat) (promise : MemoryManager.LoadPromise)
         (priority : MemoryManager.Priority) (now : Z),
    MemoryManager.promises m !! pid = Some promise ->
    MemoryManager.p_state promise = MemoryManager.Fetching ->
    MemoryManager.loadModelProgressive m (MemoryManager.p_path promise) priority now
      = (m, MemoryManager.Shared pid).
Proof.
  intros Hclear Hrun.
  destruct (dedup_init h settings) as [HR0 HN0].
  destruct (dedup_run trace _ m Hclear HR0 HN0 Hrun) as [HR HN].
  split.
  - unfold MemoryManager.inFlight. apply NoDup_fmap_filter.
    intros i j x y Hi Hj Hx Hy Hpath.
    apply (registered_unique m i j x y HR Hi Hj); congruence.
  - intros pid promise priority now Hp Hst.
    unfold MemoryManager.loadModelProgressive.
    rewrite (HN pid promise Hp Hst).
    rewrite (HR pid promise Hp) by congruence. reflexivity.
Qed.

Lemma C7_one_load_in_flight_witness :
  exists m : MemoryManager.Manager,
    MemoryManager.run Examples.manager Examples.twoLoads = Some m /\
    MemoryManager.inFlight m = [ "/models/a.glb" ] /\
    NoDup (MemoryManager.inFlight m) /\
    forall (pid : nat) (promise : MemoryManager.LoadPromise)
           (priority : MemoryManager.Priority) (now : Z),
      MemoryManager.promises m !! pid = Some promise ->
      MemoryManager.p_state promise = MemoryManager.Fetching ->
      MemoryManager.loadModelProgressive m (MemoryManager.p_path promise) priority now
        = (m, MemoryManager.Shared pid).
Proof.
  eexists. split; [vm_compute; reflexivity|].
  split; [vm_compute; reflexivity|].
  apply (C7_one_load_in_flight Examples.oldDesktop
           (JS.get MemoryManager.compressionTable "low") Examples.twoLoads).
  - vm_compute. reflexivity.
  - vm_compute. reflexivity.
Defined.

(** ** The asset cache: eviction order *)

Section Sorting.
Context {A : Type} (cmp : A -> A -> Z).

Let before (x y : A) : Prop := cmp x y <= 0.

Lemma insertSorted_perm (x : A) (l : list A) : JS.insertSorted cmp x l ≡ₚ x :: l.
Proof.
  induction l as [|y l IH]; simpl; [reflexivity|].
  destruct (cmp x y <=? 0); [reflexivity|].
  rewrite IH. apply Permutation_swap.
Qed.

(** The sort keeps the elements. *)
Lemma sort_perm (l : list A) : JS.sort cmp l ≡ₚ l.
Proof.
  induction l as [|x l IH]; simpl; [reflexivity|].
  rewrite insertSorted_perm, IH. reflexivity.
Qed.

Hypothesis cmp_total : forall x y, cmp x y <= 0 \/ cmp y x <= 0.

Lemma insertSorted_HdRel (a x : A) (l : list A) :
  before a x -> HdRel before a l -> HdRel before a (JS.insertSorted cmp x l).
Proof.
  intros Hax Hal. destruct l as [|y l]; simpl; [by constructor|].
  destruct (cmp x y <=? 0); constructor; [exact Hax|].
  by inversion Hal.
Qed.

Lemma insertSorted_sorted (x : A) (l : list A) :
  Sorted before l -> Sorted before (JS.insertSorted cmp x l).
Proof.
  induction l as [|y l IH]; intros Hs; simpl.
  - repeat constructor.
  - destruct (cmp x y <=? 0) eqn:E.
    + constructor; [exact Hs|]. constructor. unfold before. lia.
    + inversion Hs as [|? ? Hl Hhd]; subst.
      constructor; [exact (IH Hl)|].
      apply insertSorted_HdRel; [|exact Hhd].
      unfold before. destruct (cmp_total x y); lia.
Qed.

(** With a total comparator, no element of the result compares greater
    than its successor. *)
Lemma sort_sorted (l : list A) : Sorted before (JS.sort cmp l).
Proof.
  induction l as [|x l IH]; simpl; [constructor|].
  by apply insertSorted_sorted.
Qed.

End Sorting.

Section EvictionOrder.
Import MemoryManager.

(** What the comparator of the cleanup puts first: the higher priority,
    and among equal priorities the older access. *)
Lemma compareModels_le (a b : string * CacheEntry) :
  compareModels a b <= 0 <->
  priorityOrder (priority b.2) < priorityOrder (priority a.2) \/
  (priority a.2 = priority b.2 /\ lastAccessed a.2 <= lastAccessed b.2).
Proof.
  unfold compareModels.
  destruct (priority a.2), (priority b.2); simpl;
    (split;
     [ intros H; first [left; lia | right; split; [reflexivity | lia]]
     | intros [H | [H1 H2]]; first [lia | discriminate] ]).
Qed.

Lemma compareModels_total (a b : string * CacheEntry) :
  compareModels a b <= 0 \/ compareModels b a <= 0.
Proof.
  unfold compareModels.
  destruct (priority a.2), (priority b.2); simpl; lia.
Qed.

Lemma compareModels_trans (a b c : string * CacheEntry) :
  compareModels a b <= 0 -> compareModels b c <= 0 -> compareModels a c <= 0.
Proof.
  unfold compareModels.
  destruct (priority a.2), (priority b.2), (priority c.2); simpl; lia.
Qed.

(** In the order of the cleanup, every entry precedes all entries of lower
    priority and all younger entries of its own priority. *)
Lemma sortedModels_order (l : ModelMap) :
  StronglySorted (fun a b => compareModels a b <= 0) (JS.sort compareModels l).
Proof.
  apply Sorted.Sorted_StronglySorted.
  - intros a b c. apply compareModels_trans.
  - apply sort_sorted, compareModels_total.
Qed.

(** The cleanup disposes of an initial segment of that order. *)
Lemma evictLoop_log (target : Q) (sorted : ModelMap) :
  forall usage loaded log,
    exists k : nat,
      (evictLoop target sorted usage loaded log).2
      = (log ++ take k (fst <$> sorted))%list.
Proof.
  induction sorted as [|[modelPath model] sorted IH]; intros usage loaded log; simpl.
  - exists 0%nat. by rewrite app_nil_r.
  - destruct (Qle_bool usage target).
    + exists 0%nat. by rewrite app_nil_r.
    + destruct (IH (usage - memoryUsage model)%Q (mapDelete loaded modelPath)
                  (log ++ [modelPath])%list) as [k Hk].
      exists (S k). rewrite Hk, <- app_assoc. reflexivity.
Qed.

Lemma performMemoryCleanup_disposes_prefix (m : Manager) :
  exists k : nat,
    disposed (performMemoryCleanup m)
    = (disposed m ++ take k (fst <$> JS.sort compareModels (loadedModels m)))%list.
Proof.
  unfold performMemoryCleanup.
  destruct (evictLoop_log (maxCacheSize m * (6 # 10))%Q
              (JS.sort compareModels (loadedModels m))
              (getCurrentMemoryUsage m) (loadedModels m) (disposed m)) as [k Hk].
  destruct (evictLoop _ _ _ _ _) as [loaded log]. exists k. exact Hk.
Qed.

End EvictionOrder.

(** C1 (the code departs from the claim): with three resident entries of
    priorities low, high and normal, equally stale and of 30 MB each under
    a ceiling of 100 MB, the cleanup sorts the high-priority entry first
    and evicts it, and keeps the low-priority entry. *)
Theorem C1_high_priority_evicted_first :
  ((fun m => (fun e => (e.1, MemoryManager.priority e.2, MemoryManager.lastAccessed e.2))
               <$> MemoryManager.loadedModels m)
     <$> MemoryManager.run Examples.manager Examples.threeLoads)
    = Some [ ("/models/a.glb", MemoryManager.PLow, 2000);
             ("/models/b.glb", MemoryManager.PHigh, 2000);
             ("/models/c.glb", MemoryManager.PNormal, 2000) ] /\
  ((fun m => fst <$> JS.sort MemoryManager.compareModels (MemoryManager.loadedModels m))
     <$> MemoryManager.run Examples.manager Examples.threeLoads)
    = Some [ "/models/b.glb"; "/models/c.glb"; "/models/a.glb" ] /\
  MemoryManager.disposed
    <$> MemoryManager.run Examples.manager Examples.threeLoadsThenCleanup
    = Some [ "/models/b.glb" ] /\
  ((fun m => fst <$> MemoryManager.loadedModels m)
     <$> MemoryManager.run Examples.manager Examples.threeLoadsThenCleanup)
    = Some [ "/models/a.glb"; "/models/c.glb" ].
Proof.
  repeat split; vm_compute; reflexivity.
Qed.

(** * Further properties of the code *)

(** ** Capability assessment *)

Section AssessmentExtras.
Import DeviceDetection.

Lemma adjust_in_levels (net : NetworkQuality) (q : string) :
  q ∈ qualityLevels -> adjustForNetwork net q ∈ qualityLevels.
Proof.
  unfold qualityLevels. intros H.
  repeat (apply elem_of_cons in H as [-> | H];
          [destruct net; vm_compute; set_solver|]).
  by apply elem_of_nil in H.
Qed.

Lemma adjust_none_iff (net : NetworkQuality) (q : string) :
  q ∈ qualityLevels -> adjustForNetwork net q = "none" <-> q = "none".
Proof.
  unfold qualityLevels. intros H.
  repeat (apply elem_of_cons in H as [-> | H];
          [destruct net; vm_compute; split; (reflexivity || discriminate)|]).
  by apply elem_of_nil in H.
Qed.

Lemma baseQuality_none_iff (mobile : bool) (w : WebGLInfo) (mem : Q) :
  baseQuality mobile w mem = "none" <-> supported w = false.
Proof.
  unfold baseQuality. destruct (supported w); simpl.
  - repeat match goal with |- context [if ?b then _ else _] => destruct b end;
      split; discriminate.
  - split; reflexivity.
Qed.

Lemma supported_iff_context (h : Host) :
  supported (getWebGLCapabilities h) = false <-> glContext h = None.
Proof.
  unfold getWebGLCapabilities. destruct (glContext h); simpl; split;
    (reflexivity || discriminate).
Qed.

Lemma lowerChar_idempotent (c : ascii) : JS.lowerChar (JS.lowerChar c) = JS.lowerChar c.
Proof. destruct c as [[] [] [] [] [] [] [] []]; reflexivity. Qed.

Lemma toLowerCase_idempotent (s : string) :
  JS.toLowerCase (JS.toLowerCase s) = JS.toLowerCase s.
Proof.
  induction s as [|c s IH]; simpl; [reflexivity|].
  by rewrite lowerChar_idempotent, IH.
Qed.

End AssessmentExtras.

(** X1: the recommended quality is always one of ['none'], ['ultra-low'],
    ['low'], ['medium'], ['high'], and it is ['none'] exactly when no WebGL
    context could be created. *)
Theorem X1_quality_none_iff_unsupported (h : DeviceDetection.Host) :
  DeviceDetection.recommendedQuality (DeviceDetection.assessDeviceCapabilities h)
    ∈ DeviceDetection.qualityLevels /\
  (DeviceDetection.recommendedQuality (DeviceDetection.assessDeviceCapabilities h)
     = "none"
   <-> DeviceDetection.glContext h = None).
Proof.
  unfold DeviceDetection.assessDeviceCapabilities; simpl.
  pose proof (baseQuality_cases (DeviceDetection.isMobile h)
                (DeviceDetection.getWebGLCapabilities h)
                (DeviceDetection.estimateAvailableMemory h)) as Hin.
  split; [by apply adjust_in_levels|].
  rewrite (adjust_none_iff _ _ Hin), baseQuality_none_iff.
  apply supported_iff_context.
Qed.

(** X2: a mobile device is never recommended ['high'], whatever its GPU,
    memory and network. *)
Theorem X2_mobile_never_high (h : DeviceDetection.Host) :
  DeviceDetection.isMobile h = true ->
  DeviceDetection.recommendedQuality (DeviceDetection.assessDeviceCapabilities h)
    <> "high".
Proof.
  intros Hm. unfold DeviceDetection.assessDeviceCapabilities; simpl.
  rewrite Hm. unfold DeviceDetection.baseQuality.
  repeat match goal with |- context [if ?b then _ else _] => destruct b end;
    destruct (DeviceDetection.getNetworkQuality h); vm_compute; discriminate.
Qed.

Lemma X2_mobile_never_high_witness :
  DeviceDetection.recommendedQuality
    (DeviceDetection.assessDeviceCapabilities Examples.phone) <> "high".
Proof.
  apply (X2_mobile_never_high Examples.phone). reflexivity.
Defined.


(** X4: the GPU classification ignores the letter case of the renderer
    string, and it never yields the tier NONE, which is reserved for a
    missing WebGL context. *)
Theorem X4_gpu_tier_case_insensitive (renderer : string) (maxTextureSize : Z)
    (webgl2Support : bool) :
  DeviceDetection.assessGPUTier (JS.toLowerCase renderer) maxTextureSize webgl2Support
  = DeviceDetection.assessGPUTier renderer maxTextureSize webgl2Support /\
  DeviceDetection.assessGPUTier renderer maxTextureSize webgl2Support
  <> DeviceDetection.NONE.
Proof.
  unfold DeviceDetection.assessGPUTier. rewrite toLowerCase_idempotent.
  split; [reflexivity|].
  repeat match goal with |- context [if ?b then _ else _] => destruct b end;
    discriminate.
Qed.

(** X5: the loading strategy asks for texture preloading only on a desktop
    with GPU tier HIGH behind a FAST network. *)
Theorem X5_preload_only_desktop_high_fast (h : DeviceDetection.Host) :
  DeviceDetection.preloadTextures
    (DeviceDetection.loadingStrategy (DeviceDetection.assessDeviceCapabilities h))
    = true ->
  DeviceDetection.isMobile h = false /\
  DeviceDetection.tier (DeviceDetection.getWebGLCapabilities h) = DeviceDetection.HIGH /\
  DeviceDetection.getNetworkQuality h = DeviceDetection.FAST.
Proof.
  unfold DeviceDetection.assessDeviceCapabilities; simpl.
  unfold DeviceDetection.baseQuality.
  destruct (DeviceDetection.getNetworkQuality h);
    destruct (DeviceDetection.isMobile h);
    destruct (DeviceDetection.tier (DeviceDetection.getWebGLCapabilities h));
    simpl;
    repeat match goal with |- context [if ?b then _ else _] => destruct b end;
    vm_compute; intros H; (discriminate H || auto).
Qed.

Lemma X5_preload_only_desktop_high_fast_witness :
  DeviceDetection.isMobile Examples.gamingDesktop = false /\
  DeviceDetection.tier (DeviceDetection.getWebGLCapabilities Examples.gamingDesktop)
    = DeviceDetection.HIGH /\
  DeviceDetection.getNetworkQuality Examples.gamingDesktop = DeviceDetection.FAST.
Proof.
  apply (X5_preload_only_desktop_high_fast Examples.gamingDesktop). reflexivity.
Defined.

(** ** The asset cache: keys, eviction and accounting *)

Section CacheExtras.
Import MemoryManager Spec.
Local Open Scope Q_scope.

Lemma key_mapSet (l : ModelMap) (k x : string) (v : CacheEntry) :
  x ∈ (fst <$> mapSet l k v) -> x = k \/ x ∈ (fst <$> l).
Proof.
  induction l as [|[k0 v0] l IH]; simpl.
  - intros H. apply list_elem_of_singleton in H. auto.
  - destruct (String.eqb_spec k0 k) as [-> | Hne]; simpl; [auto|].
    rewrite !elem_of_cons. intros [-> | H]; [auto|].
    destruct (IH H); auto.
Qed.

Lemma elem_mapSet (l : ModelMap) (k : string) (v : CacheEntry) (x : string * CacheEntry) :
  x ∈ mapSet l k v -> x = (k, v) \/ x ∈ l.
Proof.
  induction l as [|[k0 v0] l IH]; simpl.
  - intros H. apply list_elem_of_singleton in H. auto.
  - destruct (String.eqb_spec k0 k) as [-> | Hne].
    + rewrite !elem_of_cons. intros [-> | H]; auto.
    + rewrite !elem_of_cons. intros [-> | H]; [auto|].
      destruct (IH H); auto.
Qed.

Lemma NoDup_mapSet (l : ModelMap) (k : string) (v : CacheEntry) :
  NoDup (fst <$> l) -> NoDup (fst <$> mapSet l k v).
Proof.
  induction l as [|[k0 v0] l IH]; simpl; intros H.
  - apply NoDup_singleton.
  - destruct (String.eqb_spec k0 k) as [-> | Hne]; simpl; [exact H|].
    apply NoDup_cons in H as [Hnotin Hnd].
    apply NoDup_cons. split; [|exact (IH Hnd)].
    intros Hin. apply key_mapSet in Hin as [-> | Hin]; [congruence | contradiction].
Qed.

Lemma elem_mapDelete (l : ModelMap) (k : string) (x : string * CacheEntry) :
  x ∈ mapDelete l k -> x ∈ l.
Proof.
  induction l as [|[k0 v0] l IH]; simpl; [auto|].
  destruct (String.eqb k0 k); rewrite ?elem_of_cons; [auto|].
  intros [-> | H]; auto.
Qed.

Lemma NoDup_mapDelete (l : ModelMap) (k : string) :
  NoDup (fst <$> l) -> NoDup (fst <$> mapDelete l k).
Proof.
  induction l as [|[k0 v0] l IH]; simpl; intros H; [constructor|].
  apply NoDup_cons in H as [Hnotin Hnd].
  destruct (String.eqb k0 k); simpl; [exact Hnd|].
  apply NoDup_cons. split; [|exact (IH Hnd)].
  intros Hin. apply Hnotin.
  apply list_elem_of_fmap in Hin as ([k1 v1] & -> & Hin).
  apply elem_mapDelete in Hin. by apply (list_elem_of_fmap_2 fst) in Hin.
Qed.

Lemma mapGet_Some_elem (l : ModelMap) (k : string) (e : CacheEntry) :
  mapGet l k = Some e -> (k, e) ∈ l.
Proof.
  unfold mapGet. induction l as [|[k0 v0] l IH]; simpl; [discriminate|].
  destruct (String.eqb_spec k0 k) as [-> | Hne].
  - intros [= ->]. left.
  - intros H. right. exact (IH H).
Qed.

Lemma elem_mapGet (l : ModelMap) (k : string) (e : CacheEntry) :
  NoDup (fst <$> l) -> (k, e) ∈ l -> mapGet l k = Some e.
Proof.
  unfold mapGet. induction l as [|[k0 v0] l IH]; simpl; intros Hnd Hin.
  - by apply elem_of_nil in Hin.
  - apply NoDup_cons in Hnd as [Hnotin Hnd].
    apply elem_of_cons in Hin as [[= <- <-] | Hin].
    + by rewrite String.eqb_refl.
    + destruct (String.eqb_spec k0 k) as [-> | Hne]; [|exact (IH Hnd Hin)].
      exfalso. apply Hnotin. by apply (list_elem_of_fmap_2 fst) in Hin.
Qed.

Lemma mapGet_mapSet_eq (l : ModelMap) (k : string) (v : CacheEntry) :
  mapGet (mapSet l k v) k = Some v.
Proof.
  unfold mapGet. induction l as [|[k0 v0] l IH]; simpl.
  - by rewrite String.eqb_refl.
  - destruct (String.eqb_spec k0 k) as [-> | Hne]; simpl.
    + by rewrite String.eqb_refl.
    + destruct (String.eqb_spec k0 k); [contradiction | exact IH].
Qed.

(** Deleting the key of a resident entry removes exactly that entry. *)
Lemma mapDelete_perm (l : ModelMap) (k : string) (v : CacheEntry) :
  NoDup (fst <$> l) -> (k, v) ∈ l -> l ≡ₚ (k, v) :: mapDelete l k.
Proof.
  induction l as [|[k0 v0] l IH]; simpl; intros Hnd Hin.
  - by apply elem_of_nil in Hin.
  - apply NoDup_cons in Hnd as [Hnotin Hnd].
    apply elem_of_cons in Hin as [[= <- <-] | Hin].
    + by rewrite String.eqb_refl.
    + destruct (String.eqb_spec k0 k) as [-> | Hne].
      * exfalso. apply Hnotin. by apply (list_elem_of_fmap_2 fst) in Hin.
      * rewrite (IH Hnd Hin) at 1. apply Permutation_swap.
Qed.

Lemma usageOf_perm (l l' : ModelMap) : l ≡ₚ l' -> usageOf l == usageOf l'.
Proof.
  induction 1 as [|x l l' _ IH|x y l|l l' l'' _ IH1 _ IH2]; simpl.
  - reflexivity.
  - rewrite IH. reflexivity.
  - ring.
  - rewrite IH1. exact IH2.
Qed.

(** What the eviction loop guarantees when it runs over a permutation of a
    cache with distinct keys, with the running total equal to the total of
    what is still cached. *)
Lemma evictLoop_spec (target : Q) (sorted : ModelMap) :
  0 <= target ->
  forall usage loaded log,
    NoDup (fst <$> loaded) -> loaded ≡ₚ sorted -> usage == usageOf loaded ->
    usageOf (evictLoop target sorted usage loaded log).1 <= target /\
    exists evicted : list string,
      (evictLoop target sorted usage loaded log).2 = (log ++ evicted)%list /\
      fst <$> loaded ≡ₚ (evicted ++ (fst <$> (evictLoop target sorted usage loaded log).1))%list.
Proof.
  intros Htarget.
  induction sorted as [|[modelPath model] sorted IH]; intros usage loaded log Hnd Hperm Hu;
    simpl.
  - apply Permutation_nil_r in Hperm as ->. split; [exact Htarget|].
    exists []. by rewrite app_nil_r.
  - destruct (Qle_bool usage target) eqn:E; simpl.
    + apply Qle_bool_iff in E. split; [rewrite <- Hu; exact E|].
      exists []. by rewrite app_nil_r.
    + assert (Hin : (modelPath, model) ∈ loaded).
      { rewrite Hperm. left. }
      pose proof (mapDelete_perm loaded modelPath model Hnd Hin) as Hdel.
      assert (Hrest : mapDelete loaded modelPath ≡ₚ sorted).
      { apply (Permutation_cons_inv (a := (modelPath, model))).
        by rewrite <- Hdel, Hperm. }
      assert (Hu' : usage - memoryUsage model == usageOf (mapDelete loaded modelPath)).
      { rewrite Hu, (usageOf_perm _ _ Hdel). simpl. ring. }
      destruct (IH (usage - memoryUsage model) (mapDelete loaded modelPath)
                  (log ++ [modelPath])%list (NoDup_mapDelete _ _ Hnd) Hrest Hu')
        as [Hle (evicted & Hlog & Hkeys)].
      split; [exact Hle|].
      exists (modelPath :: evicted). split.
      * rewrite Hlog, <- app_assoc. reflexivity.
      * etrans; [apply (fmap_Permutation fst), Hdel|].
        simpl. by rewrite Hkeys.
Qed.

(** Whatever the eviction loop keeps was cached before, under distinct
    keys. *)
Lemma evictLoop_keeps (target : Q) (sorted : ModelMap) :
  forall usage loaded log,
    NoDup (fst <$> loaded) ->
    NoDup (fst <$> (evictLoop target sorted usage loaded log).1) /\
    forall x, x ∈ (evictLoop target sorted usage loaded log).1 -> x ∈ loaded.
Proof.
  induction sorted as [|[modelPath model] sorted IH]; intros usage loaded log Hnd;
    simpl; [auto|].
  destruct (Qle_bool usage target); [auto|].
  destruct (IH (usage - memoryUsage model) (mapDelete loaded modelPath)
              (log ++ [modelPath])%list (NoDup_mapDelete _ _ Hnd)) as [H1 H2].
  split; [exact H1|]. intros x Hx. apply (elem_mapDelete _ modelPath), H2, Hx.
Qed.

Lemma loadedModels_performMemoryCleanup (m : Manager) :
  loadedModels (performMemoryCleanup m)
  = (evictLoop (maxCacheSize m * (6 # 10)) (JS.sort compareModels (loadedModels m))
       (getCurrentMemoryUsage m) (loadedModels m) (disposed m)).1 /\
  disposed (performMemoryCleanup m)
  = (evictLoop (maxCacheSize m * (6 # 10)) (JS.sort compareModels (loadedModels m))
       (getCurrentMemoryUsage m) (loadedModels m) (disposed m)).2 /\
  maxCacheSize (performMemoryCleanup m) = maxCacheSize m.
Proof.
  unfold performMemoryCleanup.
  destruct (evictLoop _ _ _ _ _) as [loaded log]. auto.
Qed.

Lemma wellKeyed_performMemoryCleanup (m : Manager) :
  wellKeyed m -> wellKeyed (performMemoryCleanup m).
Proof.
  intros [Hnd Hpath]. unfold wellKeyed.
  destruct (loadedModels_performMemoryCleanup m) as (-> & _ & _).
  destruct (evictLoop_keeps (maxCacheSize m * (6 # 10))
              (JS.sort compareModels (loadedModels m))
              (getCurrentMemoryUsage m) (loadedModels m) (disposed m) Hnd) as [H1 H2].
  split; [exact H1|]. intros k e Hin. apply Hpath, H2, Hin.
Qed.

Lemma wellKeyed_step (m m' : Manager) (e : Event) :
  wellKeyed m -> step m e = Some m' -> wellKeyed m'.
Proof.
  intros HW. pose proof HW as [Hnd Hpath]. destruct e; simpl.
  - intros [= <-]. unfold loadModelProgressive.
    destruct (mapGet (loadedModels m) modelPath) as [cached|] eqn:E; simpl.
    + split; simpl; [by apply NoDup_mapSet|].
      intros k e Hin. apply elem_mapSet in Hin as [[= -> ->] | Hin]; [|by apply Hpath].
      simpl. apply Hpath. by apply mapGet_Some_elem.
    + destruct (loadingPromises m !! modelPath); simpl; [exact HW|].
      unfold ensureMemoryAvailable.
      destruct (JS.gt _ _); [|exact HW].
      exact (wellKeyed_performMemoryCleanup m HW).
  - destruct (promises m !! pid) as [promise|]; [|discriminate].
    destruct (p_state promise); try discriminate.
    intros [= <-]. split; simpl; [by apply NoDup_mapSet|].
    intros k e Hin. apply elem_mapSet in Hin as [[= -> ->] | Hin]; [reflexivity|].
    by apply Hpath.
  - destruct (promises m !! pid) as [promise|]; [|discriminate].
    destruct (p_state promise); try discriminate. intros [= <-]. exact HW.
  - destruct (promises m !! pid) as [promise|]; [|discriminate].
    destruct (p_state promise); try discriminate; intros [= <-]; exact HW.
  - intros [= <-]. by apply wellKeyed_performMemoryCleanup.
  - intros [= <-]. unfold monitorTick.
    destruct (JS.gt _ _); [|exact HW].
    by apply (wellKeyed_performMemoryCleanup (updateMemoryUsage m)).
  - intros [= <-]. split; simpl; [constructor|].
    intros k e Hin. by apply elem_of_nil in Hin.
Qed.

Lemma wellKeyed_run (trace : list Event) (m m' : Manager) :
  wellKeyed m -> run m trace = Some m' -> wellKeyed m'.
Proof.
  revert m. induction trace as [|e trace IH]; intros m H; simpl.
  - intros [= <-]. exact H.
  - destruct (step m e) as [m1|] eqn:E; [|discriminate].
    apply IH. exact (wellKeyed_step _ _ _ H E).
Qed.

Lemma wellKeyed_init (h : DeviceDetection.Host) (settings : option CompressionSettings) :
  wellKeyed (init h settings).
Proof.
  split; simpl; [constructor|]. intros k e Hin. by apply elem_of_nil in Hin.
Qed.

Lemma maxCacheSize_step (m m' : Manager) (e : Event) :
  step m e = Some m' -> maxCacheSize m' = maxCacheSize m.
Proof.
  destruct e; simpl.
  - intros [= <-]. unfold loadModelProgressive.
    destruct (mapGet _ _); simpl; [reflexivity|].
    destruct (loadingPromises m !! modelPath); simpl; [reflexivity|].
    unfold ensureMemoryAvailable. destruct (JS.gt _ _); [|reflexivity].
    apply loadedModels_performMemoryCleanup.
  - destruct (promises m !! pid) as [promise|]; [|discriminate].
    destruct (p_state promise); try discriminate. intros [= <-]. reflexivity.
  - destruct (promises m !! pid) as [promise|]; [|discriminate].
    destruct (p_state promise); try discriminate. intros [= <-]. reflexivity.
  - destruct (promises m !! pid) as [promise|]; [|discriminate].
    destruct (p_state promise); try discriminate; intros [= <-]; reflexivity.
  - intros [= <-]. apply loadedModels_performMemoryCleanup.
  - intros [= <-]. unfold monitorTick. destruct (JS.gt _ _); [|reflexivity].
    apply (loadedModels_performMemoryCleanup (updateMemoryUsage m)).
  - intros [= <-]. reflexivity.
Qed.

Lemma maxCacheSize_run (trace : list Event) (m m' : Manager) :
  run m trace = Some m' -> maxCacheSize m' = maxCacheSize m.
Proof.
  revert m. induction trace as [|e trace IH]; intros m; simpl.
  - by intros [= <-].
  - destruct (step m e) as [m1|] eqn:E; [|discriminate].
    intros H. rewrite (IH _ H). exact (maxCacheSize_step _ _ _ E).
Qed.

(** The ceiling chosen by the constructor. *)
Lemma maxCacheSize_init (h : DeviceDetection.Host) (settings : option CompressionSettings) :
  maxCacheSize (init h settings) = 50 \/ maxCacheSize (init h settings) = 100 \/
  maxCacheSize (init h settings) = 200.
Proof.
  simpl. unfold getMaxCacheSize.
  repeat match goal with
         | |- context [if ?b then _ else _] => destruct b
         | |- context [match ?o with Some _ => _ | None => _ end] => destruct o
         end; auto.
Qed.

Lemma round2_mono (x y : Q) : x <= y -> round2 x <= round2 y.
Proof.
  intros H. unfold round2, JS.round.
  assert (Hf : (Qfloor (x * 100 + (1 # 2)) <= Qfloor (y * 100 + (1 # 2)))%Z).
  { apply Qfloor_resp_le. lra. }
  rewrite Zle_Qle in Hf.
  set (a := inject_Z (Qfloor (x * 100 + (1 # 2)))) in *.
  set (b := inject_Z (Qfloor (y * 100 + (1 # 2)))) in *.
  assert (Ea : a / 100 == a * (1 # 100)) by reflexivity.
  assert (Eb : b / 100 == b * (1 # 100)) by reflexivity.
  rewrite Ea, Eb. lra.
Qed.

(** After a cleanup of a cache with distinct keys under a non-negative
    ceiling, the resident entries sum to at most 60% of the ceiling. *)
Lemma cleanup_bound (m : Manager) :
  wellKeyed m -> 0 <= maxCacheSize m ->
  residentMemory (performMemoryCleanup m) <= maxCacheSize m * (6 # 10).
Proof.
  intros [Hnd _] Hmax. unfold residentMemory.
  destruct (loadedModels_performMemoryCleanup m) as (-> & _ & _).
  refine (proj1 (evictLoop_spec _ _ _ _ _ _ Hnd _ _)).
  - lra.
  - symmetry. apply sort_perm.
  - apply getCurrentMemoryUsage_sum.
Qed.

End CacheExtras.

Section CacheBounds.
Import MemoryManager Spec.
Local Open Scope Q_scope.

(** For the three ceilings the constructor can choose, rounding a total
    that is within 60% of the ceiling stays within 60% of the ceiling. *)
Lemma round2_target (cap x : Q) :
  cap = 50 \/ cap = 100 \/ cap = 200 ->
  x <= cap * (6 # 10) -> round2 x <= cap * (6 # 10).
Proof.
  intros Hcap Hx. apply round2_mono in Hx.
  assert (E : round2 (cap * (6 # 10)) == cap * (6 # 10)).
  { destruct Hcap as [-> | [-> | ->]]; reflexivity. }
  rewrite <- E. exact Hx.
Qed.

Lemma utilization_bound (cap est : Q) :
  cap = 50 \/ cap = 100 \/ cap = 200 ->
  est <= cap * (6 # 10) -> est / cap * 100 <= 60.
Proof.
  intros [-> | [-> | ->]] H; unfold Qdiv.
  - change (/ 50) with (1 # 50). lra.
  - change (/ 100) with (1 # 100). lra.
  - change (/ 200) with (1 # 200). lra.
Qed.

Lemma reachable_facts (h : DeviceDetection.Host) (settings : option CompressionSettings)
    (trace : list Event) (m : Manager) :
  run (init h settings) trace = Some m ->
  wellKeyed m /\ accounted m /\
  (maxCacheSize m = 50 \/ maxCacheSize m = 100 \/ maxCacheSize m = 200).
Proof.
  intros Hrun. split; [|split].
  - exact (wellKeyed_run _ _ _ (wellKeyed_init h settings) Hrun).
  - exact (accounted_run _ _ _ (accounted_init h settings) Hrun).
  - rewrite (maxCacheSize_run _ _ _ Hrun). apply maxCacheSize_init.
Qed.

Lemma cap_nonneg (cap : Q) : cap = 50 \/ cap = 100 \/ cap = 200 -> 0 <= cap.
Proof. intros [-> | [-> | ->]]; discriminate. Qed.

End CacheBounds.

(** X6: in every state the cache can reach, the resident keys are distinct
    and a lookup by path yields an entry whose own [path] field is that
    path. *)
Theorem X6_cache_keys_distinct (h : DeviceDetection.Host)
    (settings : option MemoryManager.CompressionSettings)
    (trace : list MemoryManager.Event) (m : MemoryManager.Manager) :
  MemoryManager.run (MemoryManager.init h settings) trace = Some m ->
  NoDup (fst <$> MemoryManager.loadedModels m) /\
  forall (k : string) (e : MemoryManager.CacheEntry),
    MemoryManager.mapGet (MemoryManager.loadedModels m) k = Some e ->
    MemoryManager.path e = k.
Proof.
  intros Hrun. destruct (reachable_facts h settings trace m Hrun) as ([Hnd Hpath] & _).
  split; [exact Hnd|]. intros k e Hget. apply Hpath. by apply mapGet_Some_elem.
Qed.

Lemma X6_cache_keys_distinct_witness :
  exists m : MemoryManager.Manager,
    MemoryManager.run Examples.manager Examples.threeLoads = Some m /\
    NoDup (fst <$> MemoryManager.loadedModels m) /\
    forall (k : string) (e : MemoryManager.CacheEntry),
      MemoryManager.mapGet (MemoryManager.loadedModels m) k = Some e ->
      MemoryManager.path e = k.
Proof.
  eexists. split; [vm_compute; reflexivity|].
  apply (X6_cache_keys_distinct Examples.oldDesktop
           (JS.get MemoryManager.compressionTable "low") Examples.threeLoads).
  vm_compute. reflexivity.
Defined.

(** X7: from every reachable state, a cleanup leaves resident entries that
    sum to at most 60% of the cache ceiling, and the statistics then report
    a cache utilisation of at most 60 percent. *)
Theorem X7_cleanup_reaches_target (h : DeviceDetection.Host)
    (settings : option MemoryManager.CompressionSettings)
    (trace : list MemoryManager.Event) (m : MemoryManager.Manager) :
  MemoryManager.run (MemoryManager.init h settings) trace = Some m ->
  (MemoryManager.residentMemory (MemoryManager.performMemoryCleanup m)
   <= MemoryManager.maxCacheSize m * (6 # 10))%Q /\
  (MemoryManager.cacheUtilization
     (MemoryManager.getMemoryStats (MemoryManager.performMemoryCleanup m)) <= 60)%Q.
Proof.
  intros Hrun. destruct (reachable_facts h settings trace m Hrun) as (HW & _ & Hcap).
  pose proof (cleanup_bound m HW (cap_nonneg _ Hcap)) as Hb.
  split; [exact Hb|].
  unfold MemoryManager.getMemoryStats; simpl.
  destruct (loadedModels_performMemoryCleanup m) as (_ & _ & ->).
  apply utilization_bound; [exact Hcap|].
  pose proof (accounted_performMemoryCleanup m) as Ha.
  unfold Spec.accounted in Ha. rewrite Ha.
  by apply round2_target.
Qed.

Lemma X7_cleanup_reaches_target_witness :
  exists m : MemoryManager.Manager,
    MemoryManager.run Examples.manager Examples.threeLoads = Some m /\
    (MemoryManager.residentMemory (MemoryManager.performMemoryCleanup m)
     <= MemoryManager.maxCacheSize m * (6 # 10))%Q /\
    (MemoryManager.cacheUtilization
       (MemoryManager.getMemoryStats (MemoryManager.performMemoryCleanup m)) <= 60)%Q.
Proof.
  eexists. split; [vm_compute; reflexivity|].
  apply (X7_cleanup_reaches_target Examples.oldDesktop
           (JS.get MemoryManager.compressionTable "low") Examples.threeLoads).
  vm_compute. reflexivity.
Defined.

(** X8: from every reachable state, a cleanup splits the resident paths
    into those it disposes of, each logged once, and those it keeps; a kept
    entry is the entry that was cached before. *)
Theorem X8_cleanup_partitions_cache (h : DeviceDetection.Host)
    (settings : option MemoryManager.CompressionSettings)
    (trace : list MemoryManager.Event) (m : MemoryManager.Manager) :
  MemoryManager.run (MemoryManager.init h settings) trace = Some m ->
  exists evicted : list string,
    MemoryManager.disposed (MemoryManager.performMemoryCleanup m)
    = (MemoryManager.disposed m ++ evicted)%list /\
    fst <$> MemoryManager.loadedModels m
    ≡ₚ (evicted ++ (fst <$> MemoryManager.loadedModels
                               (MemoryManager.performMemoryCleanup m)))%list /\
    forall (k : string) (e : MemoryManager.CacheEntry),
      MemoryManager.mapGet
        (MemoryManager.loadedModels (MemoryManager.performMemoryCleanup m)) k = Some e ->
      MemoryManager.mapGet (MemoryManager.loadedModels m) k = Some e.
Proof.
  intros Hrun.
  destruct (reachable_facts h settings trace m Hrun) as ([Hnd Hpath] & _ & Hcap).
  destruct (loadedModels_performMemoryCleanup m) as (-> & -> & _).
  assert (Htarget : (0 <= MemoryManager.maxCacheSize m * (6 # 10))%Q).
  { pose proof (cap_nonneg _ Hcap). lra. }
  destruct (evictLoop_spec _ (JS.sort MemoryManager.compareModels
                               (MemoryManager.loadedModels m)) Htarget
              (MemoryManager.getCurrentMemoryUsage m) (MemoryManager.loadedModels m)
              (MemoryManager.disposed m) Hnd)
    as (_ & evicted & Hlog & Hkeys).
  { symmetry. apply sort_perm. }
  { apply getCurrentMemoryUsage_sum. }
  exists evicted. split; [exact Hlog|]. split; [exact Hkeys|].
  intros k e Hget. apply elem_mapGet; [exact Hnd|].
  apply mapGet_Some_elem in Hget.
  exact (proj2 (evictLoop_keeps _ _ _ _ _ Hnd) _ Hget).
Qed.

Lemma X8_cleanup_partitions_cache_witness :
  exists (m : MemoryManager.Manager) (evicted : list string),
    MemoryManager.run Examples.manager Examples.threeLoads = Some m /\
    MemoryManager.disposed (MemoryManager.performMemoryCleanup m)
    = (MemoryManager.disposed m ++ evicted)%list /\
    fst <$> MemoryManager.loadedModels m
    ≡ₚ (evicted ++ (fst <$> MemoryManager.loadedModels
                               (MemoryManager.performMemoryCleanup m)))%list.
Proof.
  destruct (X8_cleanup_partitions_cache Examples.oldDesktop
              (JS.get MemoryManager.compressionTable "low") Examples.threeLoads
              (default Examples.manager
                 (MemoryManager.run Examples.manager Examples.threeLoads)))
    as (evicted & H1 & H2 & _).
  - vm_compute. reflexivity.
  - eexists. exists evicted. split; [vm_compute; reflexivity|].
    split; [exact H1 | exact H2].
Defined.

(** X9: from every reachable state, after the periodic monitoring callback
    the reported memory estimate is within the cache ceiling. *)
Theorem X9_monitor_tick_within_ceiling (h : DeviceDetection.Host)
    (settings : option MemoryManager.CompressionSettings)
    (trace : list MemoryManager.Event) (m : MemoryManager.Manager) :
  MemoryManager.run (MemoryManager.init h settings) trace = Some m ->
  (MemoryManager.estimatedMemoryMB
     (MemoryManager.stats_usage
        (MemoryManager.getMemoryStats (MemoryManager.monitorTick m)))
   <= MemoryManager.maxCacheSize m)%Q.
Proof.
  intros Hrun. destruct (reachable_facts h settings trace m Hrun) as (HW & _ & Hcap).
  unfold MemoryManager.monitorTick, MemoryManager.getMemoryStats.
  destruct (JS.gt _ _) eqn:E; simpl.
  - pose proof (accounted_performMemoryCleanup (MemoryManager.updateMemoryUsage m))
      as Ha.
    unfold Spec.accounted in Ha. rewrite Ha.
    assert (HW' : Spec.wellKeyed (MemoryManager.updateMemoryUsage m)) by exact HW.
    pose proof (cleanup_bound _ HW' (cap_nonneg _ Hcap)) as Hb.
    pose proof (round2_target _ _ Hcap Hb) as Hr.
    pose proof (cap_nonneg _ Hcap). simpl in Hr. lra.
  - apply gt_false in E. exact E.
Qed.

Lemma X9_monitor_tick_within_ceiling_witness :
  exists m : MemoryManager.Manager,
    MemoryManager.run Examples.manager Examples.threeLoads = Some m /\
    (MemoryManager.estimatedMemoryMB
       (MemoryManager.stats_usage
          (MemoryManager.getMemoryStats (MemoryManager.monitorTick m)))
     <= MemoryManager.maxCacheSize m)%Q.
Proof.
  eexists. split; [vm_compute; reflexivity|].
  apply (X9_monitor_tick_within_ceiling Examples.oldDesktop
           (JS.get MemoryManager.compressionTable "low") Examples.threeLoads).
  vm_compute. reflexivity.
Defined.

(** X10: once the underlying load of a promise has delivered a model, a
    request for the same path is answered from the cache with that very
    model, and the cached entry carries the memory estimate computed for
    it. *)
Theorem X10_loaded_model_is_served (m m' : MemoryManager.Manager) (pid : nat)
    (promise : MemoryManager.LoadPromise) (model : MemoryManager.ModelData)
    (loadTime : Q) (now later : Z) (priority : MemoryManager.Priority) :
  MemoryManager.promises m !! pid = Some promise ->
  MemoryManager.step m (MemoryManager.FetchResolved pid model loadTime now) = Some m' ->
  (MemoryManager.loadModelProgressive m' (MemoryManager.p_path promise) priority later).2
    = MemoryManager.Cached model /\
  MemoryManager.memoryUsage
    <$> MemoryManager.mapGet (MemoryManager.loadedModels m') (MemoryManager.p_path promise)
    = Some (MemoryManager.calculateModelMemoryUsage model).
Proof.
  intros Hp. simpl. rewrite Hp.
  destruct (MemoryManager.p_state promise); try discriminate.
  intros [= <-].
  unfold MemoryManager.loadModelProgressive, MemoryManager.loadModelInternal_resolved.
  simpl. rewrite mapGet_mapSet_eq. split; reflexivity.
Qed.

Lemma X10_loaded_model_is_served_witness :
  exists m1 m' : MemoryManager.Manager,
    MemoryManager.run Examples.manager
      [ MemoryManager.Load "/models/a.glb" MemoryManager.PNormal 1000 ] = Some m1 /\
    (MemoryManager.loadModelProgressive m' "/models/a.glb" MemoryManager.PHigh 3000).2
      = MemoryManager.Cached Examples.modelEighthMB.
Proof.
  exists (MemoryManager.loadModelProgressive Examples.manager "/models/a.glb"
            MemoryManager.PNormal 1000).1.
  eexists. split; [reflexivity|].
  refine (proj1 (X10_loaded_model_is_served
                   (MemoryManager.loadModelProgressive Examples.manager "/models/a.glb"
                      MemoryManager.PNormal 1000).1
                   _ 0%nat
                   {| MemoryManager.p_path := "/models/a.glb";
                      MemoryManager.p_priority := MemoryManager.PNormal;
                      MemoryManager.p_state := MemoryManager.Fetching |}
                   Examples.modelEighthMB 5 2000 3000 MemoryManager.PHigh _ _)).
  - reflexivity.
  - reflexivity.
Defined.

(** X11: neither a cleanup nor the periodic monitoring callback touches the
    pending loads: the promises, their registrations and the loads in
    flight are the same afterwards. *)
Theorem X11_eviction_leaves_pending_loads (m : MemoryManager.Manager) :
  (MemoryManager.promises (MemoryManager.performMemoryCleanup m)
     = MemoryManager.promises m /\
   MemoryManager.loadingPromises (MemoryManager.performMemoryCleanup m)
     = MemoryManager.loadingPromises m /\
   MemoryManager.inFlight (MemoryManager.performMemoryCleanup m)
     = MemoryManager.inFlight m) /\
  (MemoryManager.promises (MemoryManager.monitorTick m) = MemoryManager.promises m /\
   MemoryManager.loadingPromises (MemoryManager.monitorTick m)
     = MemoryManager.loadingPromises m /\
   MemoryManager.inFlight (MemoryManager.monitorTick m) = MemoryManager.inFlight m).
Proof.
  destruct (shrinks_performMemoryCleanup m) as (H1 & H2 & _).
  destruct (shrinks_monitorTick m) as (H3 & H4 & _).
  unfold MemoryManager.inFlight. rewrite H1, H3. auto.
Qed.

Section MemoryEstimate.
Import MemoryManager.

Lemma nodesMemory_missing_attributes (ns : list Node) (geo : Geometry) :
  {| geometry := Some geo |} ∈ ns -> attributes geo = None ->
  forall memoryMB, nodesMemory ns memoryMB = None.
Proof.
  intros Hin Hattr. induction ns as [|node ns IH]; intros memoryMB.
  - by apply elem_of_nil in Hin.
  - apply elem_of_cons in Hin as [<- | Hin]; simpl.
    + unfold geometryMemory. rewrite Hattr. reflexivity.
    + destruct (geometry node) as [g|]; [|by apply IH].
      destruct (geometryMemory g); [by apply IH | reflexivity].
Qed.

End MemoryEstimate.

(** X12: a model with a geometry that has no attribute table is estimated
    at the default of 5 MB, whatever its other geometries and its textures
    would add up to. *)
Theorem X12_missing_attributes_default (ns : list MemoryManager.Node)
    (ms : option (list MemoryManager.Material)) (geo : MemoryManager.Geometry) :
  {| MemoryManager.geometry := Some geo |} ∈ ns ->
  MemoryManager.attributes geo = None ->
  MemoryManager.calculateModelMemoryUsage
    {| MemoryManager.nodes := Some ns; MemoryManager.materials := ms |} = 5%Q.
Proof.
  intros Hin Hattr. unfold MemoryManager.calculateModelMemoryUsage; simpl.
  by rewrite (nodesMemory_missing_attributes ns geo Hin Hattr).
Qed.

Lemma X12_missing_attributes_default_witness :
  MemoryManager.calculateModelMemoryUsage
    {| MemoryManager.nodes :=
         Some [ {| MemoryManager.geometry :=
                     Some {| MemoryManager.attributes := None;
                             MemoryManager.index := Some 300%Q |} |} ];
       MemoryManager.materials := MemoryManager.materials Examples.model30MB |} = 5%Q.
Proof.
  apply (X12_missing_attributes_default _ _
           {| MemoryManager.attributes := None; MemoryManager.index := Some 300%Q |}).
  - left.
  - reflexivity.
Defined.


Section Textures.
Import MemoryManager Spec.
Local Open Scope Q_scope.

Lemma optimizeTexture_tamed (texture : option TextureState) (ratio : Q) :
  ratio <= 1 -> tamed texture (optimizeTexture texture ratio).
Proof.
  intros Hr. destruct texture as [t|]; [|exact I].
  unfold optimizeTexture.
  destruct (tex_image t) eqn:Eimg; unfold tamed; cbn [anisotropy tex_image]; cbv zeta.
  - split; [|split; [|congruence]].
    + destruct (JS.gt (anisotropy t) 1) eqn:E; [|lra].
      apply gt_true in E.
      destruct (Qle_bool (inject_Z (Qfloor (anisotropy t * ratio))) 1) eqn:E1; [lra|].
      pose proof (Qfloor_le (anisotropy t * ratio)) as Hfloor.
      assert (Hscale : anisotropy t * ratio <= anisotropy t * 1)
        by (apply Qmult_le_l; lra).
      lra.
    + intros Hgt. apply gt_true in Hgt. rewrite Hgt.
      destruct (Qle_bool (inject_Z (Qfloor (anisotropy t * ratio))) 1) eqn:E1; [lra|].
      assert (Hlt : JS.gt (inject_Z (Qfloor (anisotropy t * ratio))) 1 = true)
        by (unfold JS.gt; rewrite E1; reflexivity).
      apply gt_true in Hlt. lra.
  - split; [lra|]. split; [lra | reflexivity].
Qed.

Lemma tamed_refl (texture : option TextureState) : tamed texture texture.
Proof.
  destruct texture as [t|]; [|exact I]. simpl.
  split; [lra|]. split; [lra | reflexivity].
Qed.

End Textures.

(** X14: texture optimisation never raises the anisotropy of a texture,
    never lowers an anisotropy above 1 to below 1, keeps every image, and
    neither adds nor removes a texture. *)
Theorem X14_texture_optimisation_tames
    (textures : list (option MemoryManager.TextureState)) (compressionRatio : Q) :
  Forall2 Spec.tamed textures (MemoryManager.optimizeTextures textures compressionRatio).
Proof.
  unfold MemoryManager.optimizeTextures.
  destruct (Qle_bool 1 compressionRatio) eqn:E.
  - induction textures; constructor; [apply tamed_refl | assumption].
  - assert (Hlt : JS.gt 1 compressionRatio = true)
      by (unfold JS.gt; rewrite E; reflexivity).
    apply gt_true in Hlt.
    induction textures; simpl; constructor; [|assumption].
    apply optimizeTexture_tamed. lra.
Qed.

(** ** The runtime monitor: sample windows and recommendations *)

Section Windows.
Context {A : Type}.

Lemma pushShift_sliceLast (n : nat) (a : list A) (x : A) :
  (0 < n)%nat -> JS.pushShift n (JS.sliceLast n a) x = JS.sliceLast n (a ++ [x]).
Proof.
  intros Hn. unfold JS.pushShift, JS.sliceLast, JS.shift.
  rewrite length_app, length_drop, length_app. simpl.
  destruct (n <? length a - (length a - n) + 1)%nat eqn:E.
  - apply Nat.ltb_lt in E.
    rewrite drop_app_le by (rewrite length_drop; lia).
    rewrite drop_drop.
    replace (length a + 1 - n)%nat with (length a - n + 1)%nat by lia.
    rewrite drop_app_le by lia. reflexivity.
  - apply Nat.ltb_ge in E.
    replace (length a - n)%nat with 0%nat by lia.
    replace (length a + 1 - n)%nat with 0%nat by lia.
    reflexivity.
Qed.

Lemma sliceLast_length (n : nat) (a : list A) : (length (JS.sliceLast n a) <= n)%nat.
Proof. unfold JS.sliceLast. rewrite length_drop. lia. Qed.

Lemma pushShift_length (n : nat) (a : list A) (x : A) :
  (length a <= n)%nat -> (length (JS.pushShift n a x) <= n)%nat.
Proof.
  intros H. unfold JS.pushShift, JS.shift.
  destruct (n <? length (a ++ [x]))%nat eqn:E.
  - rewrite length_drop, length_app. simpl. lia.
  - by apply Nat.ltb_ge in E.
Qed.

End Windows.

Section MonitorExtras.
Import PerformanceMonitor Spec.

Lemma record_windows (mon0 : Monitor) (samples : list MonitorSample) :
  renderTime mon0 = [] -> animationFrames mon0 = [] -> memoryUsage mon0 = [] ->
  renderTime (foldl record mon0 samples) = JS.sliceLast 100 (renderSamples samples) /\
  animationFrames (foldl record mon0 samples)
    = JS.sliceLast 60 (animationSamples samples) /\
  memoryUsage (foldl record mon0 samples) = JS.sliceLast 100 (memorySamples samples) /\
  thresholds (foldl record mon0 samples) = thresholds mon0.
Proof.
  intros H1 H2 H3.
  induction samples as [|sample samples IH] using rev_ind.
  - simpl. rewrite H1, H2, H3. auto.
  - destruct IH as (IH1 & IH2 & IH3 & IH4).
    rewrite foldl_app. simpl.
    unfold renderSamples, animationSamples, memorySamples.
    rewrite !omap_app. simpl.
    destruct sample as [t now | d | s]; simpl; rewrite ?app_nil_r.
    + rewrite IH1. split; [by apply pushShift_sliceLast; lia | auto].
    + rewrite IH2. split; [exact IH1|]. split; [by apply pushShift_sliceLast; lia | auto].
    + rewrite IH3. split; [exact IH1|]. split; [exact IH2|].
      split; [by apply pushShift_sliceLast; lia | auto].
Qed.

(** The five threshold records the monitor can work with. *)
Lemma thresholds_cases (q : string) :
  calculateThresholds q ∈ (lowThresholds :: baseThresholds.*2).
Proof.
  unfold calculateThresholds, baseThresholds. simpl.
  repeat match goal with |- context [if ?b then _ else _] => destruct b end;
    simpl; set_solver.
Qed.

Lemma recommendations_count (t : Thresholds) (s : Snapshot) :
  length (generateOptimizationRecommendations t s) = breaches t s.
Proof.
  unfold generateOptimizationRecommendations, breaches,
    renderTimeBreach, fpsBreach, memoryBreach.
  rewrite !length_app.
  destruct (JS.gt (avgRenderTime s) (maxRenderTime t)),
           (JS.lt (avgFPS s) (minFPS t)); simpl;
    (destruct (currentMemory s) as [m|];
     [destruct (JS.gt (totalMemory m) (maxMemoryMB t))|]; reflexivity).
Qed.

End MonitorExtras.

(** X15: whatever samples are recorded, in whatever order, the monitor
    holds exactly the last 100 render times, the last 60 animation samples
    and the last 100 memory samples, and its thresholds stay those of the
    constructor. *)
Theorem X15_monitor_windows (h : DeviceDetection.Host)
    (samples : list Spec.MonitorSample) :
  PerformanceMonitor.renderTime
    (foldl Spec.record (PerformanceMonitor.constructor h) samples)
  = JS.sliceLast 100 (Spec.renderSamples samples) /\
  PerformanceMonitor.animationFrames
    (foldl Spec.record (PerformanceMonitor.constructor h) samples)
  = JS.sliceLast 60 (Spec.animationSamples samples) /\
  PerformanceMonitor.memoryUsage
    (foldl Spec.record (PerformanceMonitor.constructor h) samples)
  = JS.sliceLast 100 (Spec.memorySamples samples) /\
  PerformanceMonitor.thresholds
    (foldl Spec.record (PerformanceMonitor.constructor h) samples)
  = PerformanceMonitor.thresholds (PerformanceMonitor.constructor h).
Proof. by apply record_windows. Qed.

(** X16: a monitor that has recorded nothing reports an average render
    time of 0 and an average FPS of 60, dispatches no degrade event and
    calls no performance callback, whatever the assessed tier. *)
Theorem X16_fresh_monitor_is_quiet (h : DeviceDetection.Host) (now : Z) :
  (PerformanceMonitor.avgRenderTime
     (PerformanceMonitor.getCurrentPerformanceSnapshot
        (PerformanceMonitor.constructor h) now) == 0)%Q /\
  (PerformanceMonitor.avgFPS
     (PerformanceMonitor.getCurrentPerformanceSnapshot
        (PerformanceMonitor.constructor h) now) == 60)%Q /\
  (PerformanceMonitor.qualityCheck (PerformanceMonitor.constructor h) now).2 = None /\
  PerformanceMonitor.analyzePerformance (PerformanceMonitor.constructor h) now = None.
Proof.
  split; [reflexivity|]. split; [reflexivity|].
  unfold PerformanceMonitor.constructor.
  pose proof (thresholds_cases
                (DeviceDetection.recommendedQuality
                   (DeviceDetection.assessDeviceCapabilities h))) as Hin.
  set (t := PerformanceMonitor.calculateThresholds _) in *.
  simpl in Hin.
  repeat (apply elem_of_cons in Hin as [-> | Hin]; [split; reflexivity|]).
  by apply elem_of_nil in Hin.
Qed.

(** X17: whenever the periodic quality check dispatches the degrade event,
    the performance analysis of the same instant calls the registered
    callbacks with at least two recommendations. *)
Theorem X17_degrade_implies_recommendations (q : string)
    (mon : PerformanceMonitor.Monitor) (now : Z) (ev : PerformanceMonitor.DowngradeEvent) :
  PerformanceMonitor.thresholds mon = PerformanceMonitor.calculateThresholds q ->
  (PerformanceMonitor.qualityCheck mon now).2 = Some ev ->
  exists recommendations : list PerformanceMonitor.Recommendation,
    PerformanceMonitor.analyzePerformance mon now
    = Some (PerformanceMonitor.getCurrentPerformanceSnapshot mon now, recommendations) /\
    (2 <= length recommendations)%nat.
Proof.
  intros Ht Hev.
  assert (Hfire : (PerformanceMonitor.qualityCheck mon now).2 <> None) by congruence.
  apply qualityCheck_fires in Hfire.
  destruct (thresholds_positive q) as (H1 & H2 & H3). rewrite <- Ht in H1, H2, H3.
  pose proof (recommend_two_breaches _ H1 H2 H3 _ Hfire) as Hb.
  rewrite <- recommendations_count in Hb.
  unfold PerformanceMonitor.analyzePerformance.
  destruct (0 <? length _)%nat eqn:E.
  - eexists. split; [reflexivity | exact Hb].
  - apply Nat.ltb_ge in E. lia.
Qed.

Lemma X17_degrade_implies_recommendations_witness :
  exists recommendations : list PerformanceMonitor.Recommendation,
    PerformanceMonitor.analyzePerformance Examples.strugglingMonitor 2000
    = Some (PerformanceMonitor.getCurrentPerformanceSnapshot
              Examples.strugglingMonitor 2000, recommendations) /\
    (2 <= length recommendations)%nat.
Proof.
  apply (X17_degrade_implies_recommendations "high" Examples.strugglingMonitor 2000
           {| PerformanceMonitor.reason := "Performance degradation";
              PerformanceMonitor.performanceData :=
                PerformanceMonitor.getCurrentPerformanceSnapshot
                  Examples.strugglingMonitor 2000;
              PerformanceMonitor.event_timestamp := 2000 |}).
  - reflexivity.
  - reflexivity.
Defined.

(** ** The animation optimizer: frame window and downgrade *)

Section FrameWindow.
Import AnimationOptimizer.

(** The frame window never holds more than its sample size of 60. *)
Lemma frames_bounded (now0 : Q) (ops : list FrameOp) :
  sampleSize (foldl applyFrameOp (newFrameMonitor now0) ops) = 60%nat /\
  (length (frames (foldl applyFrameOp (newFrameMonitor now0) ops)) <= 60)%nat.
Proof.
  induction ops as [|op ops IH] using rev_ind.
  - simpl. split; [reflexivity | lia].
  - rewrite foldl_app. simpl. destruct IH as [IH1 IH2].
    destruct op as [currentTime|]; simpl.
    + split; [exact IH1|]. rewrite IH1. by apply pushShift_length.
    + split; [exact IH1 | lia].
Qed.

Lemma getStats_sampleCount (fm : FrameMonitor) :
  sampleCount (getStats fm) = Z.of_nat (length (frames fm)).
Proof. unfold getStats. destruct (frames fm); reflexivity. Qed.

Lemma getStats_fps (fm : FrameMonitor) : (stats_fps (getStats fm) <= 60)%Q.
Proof.
  unfold getStats. destruct (frames fm) as [|x l]; simpl; [discriminate|].
  destruct (Qeq_bool _ 0); [discriminate|].
  unfold JS.min. destruct (Qle_bool _ 60) eqn:E; [|discriminate].
  by apply Qle_bool_iff in E.
Qed.

Lemma indexOf_levels (q : string) :
  JS.indexOf qualityLevels q
  = if String.eqb "high" q then 0
    else if String.eqb "medium" q then 1
    else if String.eqb "low" q then 2
    else if String.eqb "ultra-low" q then 3
    else -1.
Proof.
  unfold qualityLevels. cbn [JS.indexOf].
  destruct (String.eqb "high" q), (String.eqb "medium" q), (String.eqb "low" q),
    (String.eqb "ultra-low" q); reflexivity.
Qed.

(** One downgrade from any quality name at all. *)
Lemma handlePoorPerformance_cases (o : Optimizer) :
  recommendedQuality o = "high"
    /\ recommendedQuality (handlePoorPerformance o) = "medium" \/
  recommendedQuality o = "medium"
    /\ recommendedQuality (handlePoorPerformance o) = "low" \/
  recommendedQuality o = "low"
    /\ recommendedQuality (handlePoorPerformance o) = "ultra-low" \/
  recommendedQuality o = "ultra-low" /\ handlePoorPerformance o = o \/
  recommendedQuality (handlePoorPerformance o) = "high".
Proof.
  unfold handlePoorPerformance. rewrite indexOf_levels.
  destruct (String.eqb_spec "high" (recommendedQuality o)) as [<- | _]; [auto|].
  destruct (String.eqb_spec "medium" (recommendedQuality o)) as [<- | _]; [auto|].
  destruct (String.eqb_spec "low" (recommendedQuality o)) as [<- | _]; [auto 6|].
  destruct (String.eqb_spec "ultra-low" (recommendedQuality o)) as [<- | _]; [auto 6|].
  auto 6.
Qed.

End FrameWindow.

(** X18: the periodic performance callback of the animation optimizer never
    changes the optimizer: it asks for more than 60 frame samples, and the
    frame window it reads never holds more than 60. *)
Theorem X18_optimizer_downgrade_never_fires (now0 : Q)
    (ops : list AnimationOptimizer.FrameOp) (o : AnimationOptimizer.Optimizer) :
  AnimationOptimizer.monitoringTick o
    (foldl AnimationOptimizer.applyFrameOp (AnimationOptimizer.newFrameMonitor now0) ops)
  = o.
Proof.
  unfold AnimationOptimizer.monitoringTick, AnimationOptimizer.performanceCheck.
  rewrite getStats_sampleCount.
  destruct (frames_bounded now0 ops) as [_ Hlen].
  destruct (AnimationOptimizer.currentPreset o); [|reflexivity].
  replace (60 <? _) with false by (symmetry; apply Z.ltb_ge; lia).
  by rewrite andb_false_r.
Qed.

(** X19: the statistics of the frame window report at most 60 FPS and at
    most 60 samples, whatever frames were recorded, and exactly 60 FPS with
    no sample after a reset. *)
Theorem X19_frame_stats_bounds (now0 : Q) (ops : list AnimationOptimizer.FrameOp) :
  (AnimationOptimizer.stats_fps
     (AnimationOptimizer.getStats
        (foldl AnimationOptimizer.applyFrameOp
           (AnimationOptimizer.newFrameMonitor now0) ops)) <= 60)%Q /\
  0 <= AnimationOptimizer.sampleCount
         (AnimationOptimizer.getStats
            (foldl AnimationOptimizer.applyFrameOp
               (AnimationOptimizer.newFrameMonitor now0) ops)) <= 60 /\
  AnimationOptimizer.getStats
    (AnimationOptimizer.reset
       (foldl AnimationOptimizer.applyFrameOp
          (AnimationOptimizer.newFrameMonitor now0) ops))
  = {| AnimationOptimizer.stats_fps := 60;
       AnimationOptimizer.stats_droppedFrames := 0;
       AnimationOptimizer.sampleCount := 0 |}.
Proof.
  split; [apply getStats_fps|]. split; [|reflexivity].
  rewrite getStats_sampleCount.
  destruct (frames_bounded now0 ops) as [_ Hlen]. lia.
Qed.

(** X20: after one call of [handlePoorPerformance] the optimizer is on one
    of the four loadable tiers whatever quality name it started from, after
    four calls it is on ['ultra-low'], and there it stays. *)
Theorem X20_downgrades_end_at_ultra_low (o : AnimationOptimizer.Optimizer) :
  is_Some (Spec.tierRank
             (AnimationOptimizer.recommendedQuality
                (AnimationOptimizer.handlePoorPerformance o))) /\
  AnimationOptimizer.recommendedQuality
    (AnimationOptimizer.handlePoorPerformance
       (AnimationOptimizer.handlePoorPerformance
          (AnimationOptimizer.handlePoorPerformance
             (AnimationOptimizer.handlePoorPerformance o)))) = "ultra-low" /\
  AnimationOptimizer.handlePoorPerformance
    (AnimationOptimizer.handlePoorPerformance
       (AnimationOptimizer.handlePoorPerformance
          (AnimationOptimizer.handlePoorPerformance
             (AnimationOptimizer.handlePoorPerformance o))))
  = AnimationOptimizer.handlePoorPerformance
      (AnimationOptimizer.handlePoorPerformance
         (AnimationOptimizer.handlePoorPerformance
            (AnimationOptimizer.handlePoorPerformance o))).
Proof.
  assert (Hstep : forall o1 r,
             Spec.tierRank (AnimationOptimizer.recommendedQuality o1) = Some r ->
             Spec.tierRank (AnimationOptimizer.recommendedQuality
                              (AnimationOptimizer.handlePoorPerformance o1))
             = Some (pred r))
    by (intros; by apply handlePoorPerformance_on_tiers).
  assert (Hfirst : exists r, (r <= 3)%nat /\
             Spec.tierRank (AnimationOptimizer.recommendedQuality
                              (AnimationOptimizer.handlePoorPerformance o)) = Some r).
  { destruct (handlePoorPerformance_cases o)
      as [[_ ->] | [[_ ->] | [[_ ->] | [[E ->] | ->]]]];
      [exists 2%nat | exists 1%nat | exists 0%nat | rewrite E; exists 0%nat | exists 3%nat];
      (split; [lia | reflexivity]). }
  destruct Hfirst as (r & Hr & H1).
  split; [by rewrite H1|].
  pose proof (Hstep _ _ H1) as H2. pose proof (Hstep _ _ H2) as H3.
  pose proof (Hstep _ _ H3) as H4.
  replace (pred (pred (pred r))) with 0%nat in H4 by lia.
  set (o4 := AnimationOptimizer.handlePoorPerformance
               (AnimationOptimizer.handlePoorPerformance
                  (AnimationOptimizer.handlePoorPerformance
                     (AnimationOptimizer.handlePoorPerformance o)))) in *.
  destruct (tierRank_cases _ _ H4) as [[E _] | [[_ ?] | [[_ ?] | [_ ?]]]];
    try discriminate.
  split; [exact E|].
  destruct (handlePoorPerformance_cases o4)
    as [[E' _] | [[E' _] | [[E' _] | [[_ ->] | E']]]]; try congruence.
  pose proof (Hstep _ _ H4) as H5. rewrite E' in H5. discriminate.
Qed.

(** ** The loader component: retries and sustained low FPS *)

Section LoaderExtras.
Import LODManager Spec.

Lemma retryLimit_handleLoadingError (l : Loader) (errorType : string) :
  retryLimit (handleLoadingError l errorType) = retryLimit l.
Proof.
  unfold handleLoadingError.
  destruct (retryCount l <? retryLimit l); [|reflexivity].
  destruct (JS.at_ _ _); reflexivity.
Qed.

Lemma retryCount_handleLoadingError (l : Loader) (errorType : string) :
  retryCount (handleLoadingError l errorType)
  = (if retryCount l <? retryLimit l then retryCount l + 1 else retryCount l) /\
  (is_Some (error (handleLoadingError l errorType))
   <-> retryLimit l <= retryCount l).
Proof.
  unfold handleLoadingError.
  destruct (retryCount l <? retryLimit l) eqn:E.
  - apply Z.ltb_lt in E.
    destruct (handleLoadingError_index (currentQuality l)) as [q Hq].
    rewrite Hq. simpl. split; [reflexivity|].
    split; [intros [x Hx]; discriminate | lia].
  - apply Z.ltb_ge in E. simpl. split; [reflexivity|].
    split; [intros _; exact E | eauto].
Qed.

Lemma retries_bounded (l0 : Loader) (errors : list string) :
  retryCount l0 = 0 -> error l0 = None -> 0 < retryLimit l0 ->
  retryLimit (foldl handleLoadingError l0 errors) = retryLimit l0 /\
  retryCount (foldl handleLoadingError l0 errors)
    = Z.min (Z.of_nat (length errors)) (retryLimit l0) /\
  (is_Some (error (foldl handleLoadingError l0 errors))
   <-> retryLimit l0 < Z.of_nat (length errors)).
Proof.
  intros Hc He Hl.
  induction errors as [|e errors IH] using rev_ind.
  - simpl. rewrite Hc, He. split; [reflexivity|]. split; [lia|].
    split; [intros [x Hx]; discriminate | lia].
  - destruct IH as (IH1 & IH2 & IH3).
    rewrite foldl_app, length_app. simpl.
    destruct (retryCount_handleLoadingError (foldl handleLoadingError l0 errors) e)
      as [Hcount Herr].
    rewrite retryLimit_handleLoadingError, Hcount, Herr, IH1, IH2.
    split; [reflexivity|].
    destruct (Z.min (Z.of_nat (length errors)) (retryLimit l0) <? retryLimit l0) eqn:E;
      [apply Z.ltb_lt in E | apply Z.ltb_ge in E]; lia.
Qed.

Lemma retryLimit_mount (h : DeviceDetection.Host) (forceQuality : option string)
    (modelType : string) :
  retryLimit (mount h forceQuality modelType) = 1 \/
  retryLimit (mount h forceQuality modelType) = 2.
Proof.
  unfold retryLimit, mount; simpl.
  destruct (DeviceDetection.getNetworkQuality h); simpl; auto.
Qed.

Lemma threeLows_tail (maxFPS a : Q) (samples : list Q) :
  threeLows maxFPS (a :: samples) = false -> threeLows maxFPS samples = false.
Proof.
  intros H. cbn [threeLows] in H. apply orb_false_iff in H as [_ H]. exact H.
Qed.

Lemma threeLows_third (maxFPS a b c : Q) (samples : list Q) :
  lowFPS maxFPS a = true -> lowFPS maxFPS b = true ->
  threeLows maxFPS (a :: b :: c :: samples) = false -> lowFPS maxFPS c = false.
Proof.
  intros Ha Hb H. cbn [threeLows] in H. apply orb_false_iff in H as [H _].
  rewrite Ha, Hb in H. exact H.
Qed.

(** No downgrade happens while no three consecutive seconds are low; the
    three statements are for a counter of 0, 1 and 2. *)
Lemma no_three_lows (maxFPS : Q) (l : Loader) (samples : list Q) :
  (threeLows maxFPS samples = false ->
   (foldl (observe maxFPS) (l, 0) samples).1 = l) /\
  (forall a, lowFPS maxFPS a = true -> threeLows maxFPS (a :: samples) = false ->
             (foldl (observe maxFPS) (l, 1) samples).1 = l) /\
  (forall a b, lowFPS maxFPS a = true -> lowFPS maxFPS b = true ->
               threeLows maxFPS (a :: b :: samples) = false ->
               (foldl (observe maxFPS) (l, 2) samples).1 = l).
Proof.
  induction samples as [|x samples (IH0 & IH1 & IH2)]; [simpl; auto|].
  assert (Hobs : forall c,
             observe maxFPS (l, c) x
             = if lowFPS maxFPS x
               then (if 3 <=? c + 1 then (downgradeQuality l, 0) else (l, c + 1))
               else (l, 0)) by reflexivity.
  split; [|split].
  - intros H. cbn [foldl]. rewrite Hobs.
    destruct (lowFPS maxFPS x) eqn:Ex.
    + exact (IH1 x Ex H).
    + apply IH0. exact (threeLows_tail _ _ _ H).
  - intros a Ha H. cbn [foldl]. rewrite Hobs.
    destruct (lowFPS maxFPS x) eqn:Ex.
    + exact (IH2 a x Ha Ex H).
    + apply IH0. exact (threeLows_tail _ _ _ (threeLows_tail _ _ _ H)).
  - intros a b Ha Hb H. cbn [foldl]. rewrite Hobs.
    rewrite (threeLows_third _ _ _ _ _ Ha Hb H).
    apply IH0.
    exact (threeLows_tail _ _ _ (threeLows_tail _ _ _ (threeLows_tail _ _ _ H))).
Qed.

End LoaderExtras.
